(** * The passkey service of the accounts app

    A shallow embedding of [web/apps/accounts/src/services/passkey.ts]:
    the binary encoder used on the wire, the redirect validator, the
    passkey management operations and the two WebAuthn ceremonies, with
    the properties the specification states about them. *)

From Stdlib Require Import String Ascii List NArith Bool Lia.
From Stdlib Require Import Strings.Byte.
From Stdlib Require Import DecimalString.
Import ListNotations.
Local Open Scope string_scope.

(** ** Bytes

    A [Uint8Array] is a list of [byte]; arithmetic on a byte goes through
    its value in [N]. *)

Definition bytes : Type := list byte.

Definition byte_of_N (n : N) : byte :=
  match Byte.of_N (N.land n 255) with
  | Some x => x
  | None => x00
  end.

Definition all_bytes : list byte :=
  map (fun n => byte_of_N (N.of_nat n)) (seq 0 256).

(** ** The binary encoder *)

Module Base64Url.

Local Open Scope N_scope.

(** [toB64URLSafeNoPadding] of [@ente/shared/crypto/internal/libsodium] and
    [from_base64] of [libsodium-wrappers] are defined outside the service.
    Section 4.1 of the specification describes them as a URL-safe,
    padding-free textual representation of a byte sequence and its decoder,
    which signals malformed input: base64 over the alphabet
    [A-Z a-z 0-9 - _] with no trailing [=]. *)

(** Modelled from the spec: the character of a six-bit value in the
    URL-safe alphabet. *)
Definition char_of_sextet (n : N) : ascii :=
  if n <? 26 then ascii_of_N (n + 65)
  else if n <? 52 then ascii_of_N (n + 71)
  else if n <? 62 then ascii_of_N (n - 4)
  else if n =? 62 then "-"%char
  else "_"%char.

(** Modelled from the spec: the six-bit value of a character, when it is
    one of the alphabet. *)
Definition sextet_of_char (c : ascii) : option N :=
  let n := N_of_ascii c in
  if (65 <=? n) && (n <=? 90) then Some (n - 65)
  else if (97 <=? n) && (n <=? 122) then Some (n - 71)
  else if (48 <=? n) && (n <=? 57) then Some (n + 4)
  else if n =? 45 then Some 62
  else if n =? 95 then Some 63
  else None.

(** Modelled from the spec: the four six-bit groups of three bytes
    [a b c]. *)
Definition sextet1 (a : byte) : N := N.shiftr (Byte.to_N a) 2.
Definition sextet2 (a b : byte) : N :=
  N.lor (N.shiftl (N.land (Byte.to_N a) 3) 4) (N.shiftr (Byte.to_N b) 4).
Definition sextet3 (b c : byte) : N :=
  N.lor (N.shiftl (N.land (Byte.to_N b) 15) 2) (N.shiftr (Byte.to_N c) 6).
Definition sextet4 (c : byte) : N := N.land (Byte.to_N c) 63.

(** Modelled from the spec: the three bytes of four six-bit groups. *)
Definition octet1 (s1 s2 : N) : byte :=
  byte_of_N (N.lor (N.shiftl s1 2) (N.shiftr s2 4)).
Definition octet2 (s2 s3 : N) : byte :=
  byte_of_N (N.lor (N.shiftl (N.land s2 15) 4) (N.shiftr s3 2)).
Definition octet3 (s3 s4 : N) : byte :=
  byte_of_N (N.lor (N.shiftl (N.land s3 3) 6) s4).

(** Modelled from the spec: the encoder, [encode] of section 4.1. A last
    group of one or two bytes gives two or three characters, and no
    padding follows. *)
Fixpoint encode (bs : bytes) : string :=
  match bs with
  | [] => EmptyString
  | [a] =>
      String (char_of_sextet (sextet1 a))
        (String (char_of_sextet (sextet2 a x00)) EmptyString)
  | [a; b] =>
      String (char_of_sextet (sextet1 a))
        (String (char_of_sextet (sextet2 a b))
           (String (char_of_sextet (sextet3 b x00)) EmptyString))
  | a :: b :: c :: rest =>
      String (char_of_sextet (sextet1 a))
        (String (char_of_sextet (sextet2 a b))
           (String (char_of_sextet (sextet3 b c))
              (String (char_of_sextet (sextet4 c)) (encode rest))))
  end.

(** Modelled from the spec: the decoder, [decode] of section 4.1. [None]
    stands for the malformed-encoding failure: a character outside the
    alphabet, a lone last character, or set bits past the last whole byte. *)
Fixpoint decode (s : string) : option bytes :=
  match s with
  | EmptyString => Some []
  | String _ EmptyString => None
  | String c1 (String c2 EmptyString) =>
      match sextet_of_char c1, sextet_of_char c2 with
      | Some s1, Some s2 =>
          if N.land s2 15 =? 0 then Some [octet1 s1 s2] else None
      | _, _ => None
      end
  | String c1 (String c2 (String c3 EmptyString)) =>
      match sextet_of_char c1, sextet_of_char c2, sextet_of_char c3 with
      | Some s1, Some s2, Some s3 =>
          if N.land s3 3 =? 0 then Some [octet1 s1 s2; octet2 s2 s3]
          else None
      | _, _, _ => None
      end
  | String c1 (String c2 (String c3 (String c4 rest))) =>
      match sextet_of_char c1, sextet_of_char c2,
            sextet_of_char c3, sextet_of_char c4 with
      | Some s1, Some s2, Some s3, Some s4 =>
          match decode rest with
          | Some tl => Some (octet1 s1 s2 :: octet2 s2 s3 :: octet3 s3 s4 :: tl)
          | None => None
          end
      | _, _, _, _ => None
      end
  end.

End Base64Url.

(** ** JavaScript values *)

(** An error object, by its [name] and [message]. *)
Record JsError : Type := mkError { err_name : string; err_message : string }.

(** [new Error(message)] *)
Definition Error (message : string) : JsError := mkError "Error" message.

(** How a call ends: with a value, or with a thrown error (for an [async]
    function: a promise that resolves, or one that rejects). *)
Inductive Completion (A : Type) : Type :=
| Returned (a : A)
| Thrown (e : JsError).
Arguments Returned {A} a.
Arguments Thrown {A} e.

(** The values that travel in requests and responses. [JsonText v] is the
    string [JSON.stringify(v)]. *)
#[local] Set Warnings "-register-all".
Inductive JsValue : Type :=
| JsUndefined
| JsNull
| JsNumber (n : N)
| JsString (s : string)
| JsArray (items : list JsValue)
| JsObject (fields : list (string * JsValue))
| JsonText (v : JsValue).

Fixpoint assoc (k : string) (fields : list (string * JsValue)) : JsValue :=
  match fields with
  | [] => JsUndefined
  | (k', v) :: rest => if String.eqb k k' then v else assoc k rest
  end.

(** [v.k], for [v] an object. *)
Definition field (k : string) (v : JsValue) : JsValue :=
  match v with
  | JsObject fields => assoc k fields
  | _ => JsUndefined
  end.

(** The object a request body stands for, whether it was passed as an object
    or as its JSON text. *)
Definition payload (v : JsValue) : JsValue :=
  match v with
  | JsonText o => o
  | o => o
  end.

(** A value that is not [undefined], [null] or the empty string, for
    [if (!x)] and [if (x)] on a [string | null | undefined]. *)
Definition truthy (x : option string) : option string :=
  match x with
  | Some s => if String.eqb s "" then None else Some s
  | None => None
  end.

(** [new Uint8Array(buffer)]: the bytes of the buffer; of [undefined] or
    [null], the empty array. *)
Definition Uint8Array (buffer : option bytes) : bytes :=
  match buffer with
  | Some b => b
  | None => []
  end.

(** [s.endsWith(suffix)] *)
Fixpoint endsWith (s suffix : string) : bool :=
  if String.eqb s suffix then true
  else match s with
       | EmptyString => false
       | String _ s' => endsWith s' suffix
       end.

(** The number [n] in a template literal. *)
Definition string_of_N (n : N) : string := NilZero.string_of_uint (N.to_uint n).

(** ** The libsodium helpers *)

(** Modelled from the spec: [toB64URLSafeNoPadding], the encoder of
    section 4.1 (it is [async] only to wait for the library to load). *)
Definition toB64URLSafeNoPadding (input : bytes) : string :=
  Base64Url.encode input.

(** Modelled from the spec: the error of a malformed encoding, section 7. *)
Definition MalformedEncodingError : JsError :=
  mkError "MalformedEncodingError" "invalid input".

(** Modelled from the spec: [_sodium.from_base64], the decoder of
    section 4.1, which throws on malformed input. *)
Definition from_base64 (input : string) : Completion bytes :=
  match Base64Url.decode input with
  | Some b => Returned b
  | None => Thrown MalformedEncodingError
  end.

(** ** URLs and the redirect validator *)

(** The parts of a parsed [URL] that the validator reads. [port] is empty
    when the URL names none or names the default one of its scheme. *)
Record URL : Type := mkURL {
  protocol : string;
  hostname : string;
  port : string
}.

(** [url.host]: the host name, followed by [:] and the port when there
    is one. *)
Definition host (u : URL) : string :=
  if String.eqb (port u) "" then hostname u
  else hostname u ++ ":" ++ port u.

(** The last character of a string, and the strings of decimal digits: a
    port, when the URL has one, is such a string. *)
Fixpoint last_char (s : string) : option ascii :=
  match s with
  | EmptyString => None
  | String c EmptyString => Some c
  | String _ s' => last_char s'
  end.

Definition is_digit (c : ascii) : bool :=
  (48 <=? N_of_ascii c)%N && (N_of_ascii c <=? 57)%N.

Fixpoint all_digits (s : string) : bool :=
  match s with
  | EmptyString => true
  | String c s' => is_digit c && all_digits s'
  end.

Section Redirect.

Variable isDevBuild : bool.

Definition isWhitelistedRedirect (redirectURL : URL) : bool :=
  (isDevBuild && endsWith (hostname redirectURL) "localhost") ||
  endsWith (host redirectURL) ".ente.io" ||
  endsWith (host redirectURL) ".ente.sh" ||
  String.eqb (protocol redirectURL) "ente:" ||
  String.eqb (protocol redirectURL) "enteauth:".

End Redirect.

(** "Ends with", as a statement, and the constants of the source. *)
Definition ends_with (s suffix : string) : Prop :=
  exists prefix, s = prefix ++ suffix.

Definition localLoopbackDomain : string := "localhost".
Definition productionParentDomains : list string := [".ente.io"; ".ente.sh"].
Definition customApplicationSchemes : list string := ["ente:"; "enteauth:"].

(** The rule of section 4.6, in the specification's words: allow exactly
    when (a) the build is a development build and the host ends with a
    local-loopback domain, or (b) the host ends with one of the production
    parent domains, or (c) the scheme is one of the application schemes. The
    specification speaks of one host; [hostOf] says which string of the URL
    that is ([hostname], or [host] with the port). *)
Definition isAllowedRedirect
    (hostOf : URL -> string) (developmentBuild : bool) (u : URL) : Prop :=
  (developmentBuild = true /\ ends_with (hostOf u) localLoopbackDomain) \/
  (exists d, In d productionParentDomains /\ ends_with (hostOf u) d) \/
  In (protocol u) customApplicationSchemes.

(** The rule with the two hosts told apart: the host name, without the port,
    in (a), and the host followed by the port, when the URL names one,
    in (b). *)
Definition isAllowedRedirect_amended (developmentBuild : bool) (u : URL) : Prop :=
  (developmentBuild = true /\ ends_with (hostname u) localLoopbackDomain) \/
  (exists d, In d productionParentDomains /\ ends_with (host u) d) \/
  In (protocol u) customApplicationSchemes.

(** ** Requests, credentials and the state the service runs in *)

Inductive Method : Type := GET | POST | PATCH | DELETE.

(** A call of the transport: [HTTPService.get(url, params, headers)],
    [HTTPService.post], [.patch] and [.delete] [(url, data, params, headers)],
    or [fetch(url, {headers})]. An argument left out is [undefined]. *)
Record Request : Type := mkRequest {
  req_method : Method;
  req_url : string;
  req_data : JsValue;
  req_params : JsValue;
  req_headers : JsValue
}.

(** What [HTTPService] resolves to; the service reads [data] only. *)
Record HTTPResponse : Type := mkHTTPResponse { data : JsValue }.

(** [PublicKeyCredentialCreationOptions], with the two binary members the
    ceremony touches: of type [B := string] as the server sends them, and
    [B := bytes] as the browser wants them. The members the service never
    reads ([rp], [pubKeyCredParams], [timeout], ...) are kept in [pk_rest]. *)
Record PublicKeyCredentialUserEntity (B : Type) : Type := mkUser {
  user_id : B;
  user_name : string;
  user_displayName : string
}.
Arguments mkUser {B}.
Arguments user_id {B}.
Arguments user_name {B}.
Arguments user_displayName {B}.

Record PublicKeyCredentialCreationOptions (B : Type) : Type := mkPublicKey {
  challenge : B;
  user : PublicKeyCredentialUserEntity B;
  pk_rest : JsValue
}.
Arguments mkPublicKey {B}.
Arguments challenge {B}.
Arguments user {B}.
Arguments pk_rest {B}.

Record CredentialCreationOptions (B : Type) : Type := mkOptions {
  publicKey : PublicKeyCredentialCreationOptions B
}.
Arguments mkOptions {B}.
Arguments publicKey {B}.

(** The answer of the begin endpoint, as [registerPasskey] types it. *)
Record PasskeyRegistrationOptions : Type := mkRegistrationOptions {
  options : CredentialCreationOptions string;
  sessionID : string
}.

(** What [fetch] resolves to. *)
Record FetchResponse : Type := mkFetchResponse {
  ok : bool;
  status : N;
  json : Completion PasskeyRegistrationOptions
}.

(** The credential the browser hands back. A member of [response] that the
    authenticator did not produce is [None] ([undefined] or [null]). *)
Record AuthenticatorResponse : Type := mkAuthenticatorResponse {
  attestationObject : option bytes;
  clientDataJSON : option bytes;
  authenticatorData : option bytes;
  signature : option bytes;
  userHandle : option bytes
}.

Record Credential : Type := mkCredential {
  cred_id : string;
  cred_rawId : bytes;
  cred_type : string;
  cred_response : AuthenticatorResponse
}.

(** The state: what local storage holds, and journals of what the service
    did to the outside: the requests it issued, the credential prompts it
    opened and the errors it logged, each oldest first. *)
Record World : Type := mkWorld {
  token : option string;
  clientPackage : option string;
  network : list Request;
  prompts : list (CredentialCreationOptions bytes);
  errorLog : list (string * JsError)
}.

Definition sent (r : Request) (w : World) : World :=
  mkWorld (token w) (clientPackage w) (network w ++ [r]) (prompts w) (errorLog w).

Definition prompted (o : CredentialCreationOptions bytes) (w : World) : World :=
  mkWorld (token w) (clientPackage w) (network w) (prompts w ++ [o]) (errorLog w).

Definition logged (message : string) (e : JsError) (w : World) : World :=
  mkWorld (token w) (clientPackage w) (network w) (prompts w)
          (errorLog w ++ [(message, e)]).

(** ** Computations: state passing with exceptions *)

Definition M (A : Type) : Type := World -> Completion A * World.

Definition ret {A : Type} (a : A) : M A := fun w => (Returned a, w).

Definition throw {A : Type} (e : JsError) : M A := fun w => (Thrown e, w).

Definition bind {A B : Type} (m : M A) (k : A -> M B) : M B :=
  fun w =>
    match m w with
    | (Returned a, w') => k a w'
    | (Thrown e, w') => (Thrown e, w')
    end.

(** [try { m } catch (e) { handler(e) }] *)
Definition try_catch {A : Type} (m : M A) (handler : JsError -> M A) : M A :=
  fun w =>
    match m w with
    | (Returned a, w') => (Returned a, w')
    | (Thrown e, w') => handler e w'
    end.

(** A call that cannot touch the state. *)
Definition lift {A : Type} (c : Completion A) : M A := fun w => (c, w).

Notation "x <- m ;; k" := (bind m (fun x => k))
  (at level 61, m at next level, right associativity).
Notation "m ;;; k" := (bind m (fun _ => k))
  (at level 61, right associativity).

(** A computation that leaves the error log as it found it. *)
Definition silent {A : Type} (m : M A) : Prop :=
  forall w, errorLog (snd (m w)) = errorLog w.

(** The requests a computation issues when run from [w]. *)
Definition requests_of {A : Type} (m : M A) (w : World) : list Request :=
  skipn (length (network w)) (network (snd (m w))).

(** ** The service *)

(** The outside of the service. [ENDPOINT] and [apiOrigin] are the base URLs
    of the API ([getEndpoint()], [apiOrigin()]). [HTTPService] (which rejects on
    a transport failure or a status that is not 2xx), the browser's [fetch]
    and [navigator.credentials.create] each answer from what they were asked
    before and what they are asked now. [ensureError] is what [ensure] throws
    on [null] and [undefined]. *)
Record Outside : Type := mkOutside {
  ENDPOINT : string;
  apiOrigin : string;
  HTTPService : list Request -> Request -> Completion HTTPResponse;
  fetch : list Request -> Request -> Completion FetchResponse;
  navigator_credentials_create :
    list (CredentialCreationOptions bytes) -> CredentialCreationOptions bytes ->
    Completion (option Credential);
  ensureError : JsError
}.

Section Service.

Variable env : Outside.

Definition getToken : M (option string) := fun w => (Returned (token w), w).

Definition localStorage_getItem (key : string) : M (option string) :=
  fun w => (Returned (if String.eqb key "clientPackage" then clientPackage w
                      else None), w).

Definition nullToUndefined (v : option string) : option string := v.

Definition ensure {A : Type} (v : option A) : M A :=
  match v with
  | Some a => ret a
  | None => throw (ensureError env)
  end.

Definition log_error (message : string) (e : JsError) : M unit :=
  fun w => (Returned tt, logged message e w).

Definition HTTPService_request (r : Request) : M HTTPResponse :=
  fun w => (HTTPService env (network w) r, sent r w).

Definition HTTPService_get (url : string) (params headers : JsValue) :=
  HTTPService_request (mkRequest GET url JsUndefined params headers).

Definition HTTPService_post (url : string) (body params headers : JsValue) :=
  HTTPService_request (mkRequest POST url body params headers).

Definition HTTPService_patch (url : string) (body params headers : JsValue) :=
  HTTPService_request (mkRequest PATCH url body params headers).

Definition HTTPService_delete (url : string) (body params headers : JsValue) :=
  HTTPService_request (mkRequest DELETE url body params headers).

Definition fetch_with_headers (url : string) (headers : JsValue) : M FetchResponse :=
  fun w =>
    let r := mkRequest GET url JsUndefined JsUndefined headers in
    (fetch env (network w) r, sent r w).

Definition credentials_create (o : CredentialCreationOptions bytes)
  : M (option Credential) :=
  fun w => (navigator_credentials_create env (prompts w) o, prompted o w).

Definition accountsAuthenticatedRequestHeaders : M JsValue :=
  token <- getToken ;;
  match truthy token with
  | None => throw (Error "Missing accounts token")
  | Some token =>
      let headers := [("X-Auth-Token", JsString token)] in
      clientPackage <- localStorage_getItem "clientPackage" ;;
      match truthy (nullToUndefined clientPackage) with
      | Some clientPackage =>
          ret (JsObject (headers ++ [("X-Client-Package", JsString clientPackage)]))
      | None => ret (JsObject headers)
      end
  end.

Definition getPasskeys : M JsValue :=
  token <- getToken ;;
  match truthy token with
  | None => ret JsUndefined
  | Some token =>
      response <- HTTPService_get (ENDPOINT env ++ "/passkeys") (JsObject [])
                    (JsObject [("X-Auth-Token", JsString token)]) ;;
      ret (data response)
  end.

Definition renamePasskey (id name : string) : M JsValue :=
  try_catch
    (token <- getToken ;;
     match truthy token with
     | None => ret JsUndefined
     | Some token =>
         response <- HTTPService_patch (ENDPOINT env ++ "/passkeys/" ++ id)
                       (JsObject [])
                       (JsObject [("friendlyName", JsString name)])
                       (JsObject [("X-Auth-Token", JsString token)]) ;;
         ret (data response)
     end)
    (fun e => log_error "rename passkey failed" e ;;; throw e).

Definition deletePasskey (id : string) : M JsValue :=
  try_catch
    (token <- getToken ;;
     match truthy token with
     | None => ret JsUndefined
     | Some token =>
         response <- HTTPService_delete (ENDPOINT env ++ "/passkeys/" ++ id)
                       (JsObject []) (JsObject [])
                       (JsObject [("X-Auth-Token", JsString token)]) ;;
         ret (data response)
     end)
    (fun e => log_error "delete passkey failed" e ;;; throw e).

Definition getPasskeyRegistrationOptions : M PasskeyRegistrationOptions :=
  let url := apiOrigin env ++ "/passkeys/registration/begin" in
  headers <- accountsAuthenticatedRequestHeaders ;;
  res <- fetch_with_headers url headers ;;
  if negb (ok res)
  then throw (Error ("Failed to fetch " ++ url ++ ": HTTP " ++ string_of_N (status res)))
  else lift (json res).

Definition finishPasskeyRegistration
    (friendlyName : string) (credential : Credential) (sessionID : string)
  : M JsValue :=
  let attestationObjectB64 :=
    toB64URLSafeNoPadding
      (Uint8Array (attestationObject (cred_response credential))) in
  let clientDataJSONB64 :=
    toB64URLSafeNoPadding
      (Uint8Array (clientDataJSON (cred_response credential))) in
  token <- bind getToken ensure ;;
  response <- HTTPService_post (ENDPOINT env ++ "/passkeys/registration/finish")
                (JsonText (JsObject [
                   ("id", JsString (cred_id credential));
                   ("rawId", JsString (cred_id credential));
                   ("type", JsString (cred_type credential));
                   ("response", JsObject [
                      ("attestationObject", JsString attestationObjectB64);
                      ("clientDataJSON", JsString clientDataJSONB64)])]))
                (JsObject [("friendlyName", JsString friendlyName);
                           ("sessionID", JsString sessionID)])
                (JsObject [("X-Auth-Token", JsString token)]) ;;
  ret (data response).

(** The options object after the two assignments of [registerPasskey]:
    [challenge] and [user.id] hold the decoded bytes, every other member is
    as the server sent it. *)
Definition assign_decoded (options : CredentialCreationOptions string)
    (challenge' user_id' : bytes) : CredentialCreationOptions bytes :=
  mkOptions
    (mkPublicKey challenge'
       (mkUser user_id' (user_name (user (publicKey options)))
               (user_displayName (user (publicKey options))))
       (pk_rest (publicKey options))).

Definition registerPasskey (name : string) : M unit :=
  response <- getPasskeyRegistrationOptions ;;
  let options := options response in
  challenge' <- lift (from_base64 (challenge (publicKey options))) ;;
  user_id' <- lift (from_base64 (user_id (user (publicKey options)))) ;;
  credential <- bind (credentials_create (assign_decoded options challenge' user_id'))
                     ensure ;;
  finishPasskeyRegistration name credential (sessionID response) ;;;
  ret tt.

Definition beginPasskeyAuthentication (sessionId : string) : M JsValue :=
  try_catch
    (data_ <- HTTPService_post (ENDPOINT env ++ "/users/two-factor/passkeys/begin")
                (JsObject [("sessionID", JsString sessionId)])
                JsUndefined JsUndefined ;;
     ret (data data_))
    (fun e => log_error "begin passkey authentication failed" e ;;; throw e).

Definition finishPasskeyAuthentication
    (credential : Credential) (sessionId ceremonySessionId : string)
  : M JsValue :=
  try_catch
    (let r := cred_response credential in
     data_ <- HTTPService_post (ENDPOINT env ++ "/users/two-factor/passkeys/finish")
                (JsObject [
                   ("id", JsString (cred_id credential));
                   ("rawId", JsString (cred_id credential));
                   ("type", JsString (cred_type credential));
                   ("response", JsObject [
                      ("authenticatorData",
                        JsString (toB64URLSafeNoPadding (Uint8Array (authenticatorData r))));
                      ("clientDataJSON",
                        JsString (toB64URLSafeNoPadding (Uint8Array (clientDataJSON r))));
                      ("signature",
                        JsString (toB64URLSafeNoPadding (Uint8Array (signature r))));
                      ("userHandle",
                        JsString (toB64URLSafeNoPadding (Uint8Array (userHandle r))))])])
                (JsObject [("sessionID", JsString sessionId);
                           ("ceremonySessionID", JsString ceremonySessionId)])
                JsUndefined ;;
     ret (data data_))
    (fun e => log_error "finish passkey authentication failed" e ;;; throw e).

(** The request [finishPasskeyRegistration] assembles once it has read the
    token [token], and the one [finishPasskeyAuthentication] assembles. *)
Definition registrationFinishRequest
    (friendlyName : string) (credential : Credential) (sessionID token : string)
  : Request :=
  mkRequest POST (ENDPOINT env ++ "/passkeys/registration/finish")
    (JsonText (JsObject [
       ("id", JsString (cred_id credential));
       ("rawId", JsString (cred_id credential));
       ("type", JsString (cred_type credential));
       ("response", JsObject [
          ("attestationObject",
            JsString (toB64URLSafeNoPadding
                        (Uint8Array (attestationObject (cred_response credential)))));
          ("clientDataJSON",
            JsString (toB64URLSafeNoPadding
                        (Uint8Array (clientDataJSON (cred_response credential)))))])]))
    (JsObject [("friendlyName", JsString friendlyName);
               ("sessionID", JsString sessionID)])
    (JsObject [("X-Auth-Token", JsString token)]).

Definition authenticationFinishRequest
    (credential : Credential) (sessionId ceremonySessionId : string) : Request :=
  mkRequest POST (ENDPOINT env ++ "/users/two-factor/passkeys/finish")
    (JsObject [
       ("id", JsString (cred_id credential));
       ("rawId", JsString (cred_id credential));
       ("type", JsString (cred_type credential));
       ("response", JsObject [
          ("authenticatorData",
            JsString (toB64URLSafeNoPadding
                        (Uint8Array (authenticatorData (cred_response credential)))));
          ("clientDataJSON",
            JsString (toB64URLSafeNoPadding
                        (Uint8Array (clientDataJSON (cred_response credential)))));
          ("signature",
            JsString (toB64URLSafeNoPadding
                        (Uint8Array (signature (cred_response credential)))));
          ("userHandle",
            JsString (toB64URLSafeNoPadding
                        (Uint8Array (userHandle (cred_response credential)))))])])
    (JsObject [("sessionID", JsString sessionId);
               ("ceremonySessionID", JsString ceremonySessionId)])
    JsUndefined.

Definition registrationBeginRequest (headers : JsValue) : Request :=
  mkRequest GET (apiOrigin env ++ "/passkeys/registration/begin")
            JsUndefined JsUndefined headers.

End Service.

(** ** A sample run

    A server and a browser that answer every call the same way, for trying
    the service on concrete inputs. *)

Module Sample.

Definition credential : Credential :=
  mkCredential "AQID" [x01; x02; x03] "public-key"
    (mkAuthenticatorResponse (Some [xa3; x63; x66; x6d; x74])
                             (Some [x7b; x7d]) None None None).

Definition registrationOptions : PasskeyRegistrationOptions :=
  mkRegistrationOptions
    (mkOptions (mkPublicKey "_-8A" (mkUser "AAEC" "a@ente.io" "A")
                            (JsObject [("timeout", JsNumber 60000)])))
    "session+1/=".

Definition NotAllowedError : JsError :=
  mkError "NotAllowedError" "The operation either timed out or was not allowed.".

Definition NetworkError : JsError := mkError "Error" "Network Error".

(** A server that accepts everything, and a user who approves the prompt. *)
Definition approving : Outside :=
  mkOutside "https://api.ente.io" "https://api.ente.io"
    (fun _ _ => Returned (mkHTTPResponse JsNull))
    (fun _ _ => Returned (mkFetchResponse true 200 (Returned registrationOptions)))
    (fun _ _ => Returned (Some credential))
    (Error "Required value was not found").

(** The same server, and a user who dismisses the prompt. *)
Definition declining : Outside :=
  mkOutside "https://api.ente.io" "https://api.ente.io"
    (fun _ _ => Returned (mkHTTPResponse JsNull))
    (fun _ _ => Returned (mkFetchResponse true 200 (Returned registrationOptions)))
    (fun _ _ => Thrown NotAllowedError)
    (Error "Required value was not found").

(** A server that cannot be reached. *)
Definition offline : Outside :=
  mkOutside "https://api.ente.io" "https://api.ente.io"
    (fun _ _ => Thrown NetworkError)
    (fun _ _ => Thrown NetworkError)
    (fun _ _ => Returned (Some credential))
    (Error "Required value was not found").

(** A server that answers 503 to [fetch]. *)
Definition unavailable : Outside :=
  mkOutside "https://api.ente.io" "https://api.ente.io"
    (fun _ _ => Thrown NetworkError)
    (fun _ _ => Returned (mkFetchResponse false 503 (Thrown NetworkError)))
    (fun _ _ => Returned (Some credential))
    (Error "Required value was not found").

Definition signedOut : World := mkWorld None None [] [] [].

Definition signedIn : World := mkWorld (Some "tok") (Some "io.ente.photos.web") [] [] [].

(** A begin answer whose user handle is padded base64, which the decoder
    refuses. *)
Definition paddedOptions : PasskeyRegistrationOptions :=
  mkRegistrationOptions
    (mkOptions (mkPublicKey "_-8A" (mkUser "AAECAw==" "a@ente.io" "A")
                            (JsObject [("timeout", JsNumber 60000)])))
    "session+1/=".

Definition padding : Outside :=
  mkOutside "https://api.ente.io" "https://api.ente.io"
    (fun _ _ => Returned (mkHTTPResponse JsNull))
    (fun _ _ => Returned (mkFetchResponse true 200 (Returned paddedOptions)))
    (fun _ _ => Returned (Some credential))
    (Error "Required value was not found").

(** A browser that resolves the prompt with no credential. *)
Definition emptyHanded : Outside :=
  mkOutside "https://api.ente.io" "https://api.ente.io"
    (fun _ _ => Returned (mkHTTPResponse JsNull))
    (fun _ _ => Returned (mkFetchResponse true 200 (Returned registrationOptions)))
    (fun _ _ => Returned None)
    (Error "Required value was not found").

Definition ServerError : JsError :=
  mkError "AxiosError" "Request failed with status code 400".

(** A server that answers the begin call and refuses everything sent
    through [HTTPService]. *)
Definition refusing : Outside :=
  mkOutside "https://api.ente.io" "https://api.ente.io"
    (fun _ _ => Thrown ServerError)
    (fun _ _ => Returned (mkFetchResponse true 200 (Returned registrationOptions)))
    (fun _ _ => Returned (Some credential))
    (Error "Required value was not found").

(** A signed-in state with no client package recorded. *)
Definition signedInBare : World := mkWorld (Some "tok") None [] [] [].

End Sample.

(** * Properties *)

(** ** Bytes and lists *)

Lemma byte_of_to_N (x : byte) : byte_of_N (Byte.to_N x) = x.
Proof.
  unfold byte_of_N.
  assert (H : N.land (Byte.to_N x) 255 = Byte.to_N x).
  { change 255%N with (N.ones 8). rewrite N.land_ones.
    apply N.mod_small. pose proof (Byte.to_N_bounded x). simpl. lia. }
  rewrite H, Byte.of_to_N. reflexivity.
Qed.

Lemma in_all_bytes (x : byte) : In x all_bytes.
Proof.
  unfold all_bytes. apply in_map_iff.
  exists (N.to_nat (Byte.to_N x)). split.
  - rewrite N2Nat.id. apply byte_of_to_N.
  - apply in_seq. pose proof (Byte.to_N_bounded x). lia.
Qed.

(** Checking a decidable property of one byte, or of two, on all of them. *)
Lemma forall_byte (p : byte -> bool) :
  forallb p all_bytes = true -> forall x, p x = true.
Proof.
  intros H x. rewrite forallb_forall in H. apply H, in_all_bytes.
Qed.

Lemma forall_byte2 (p : byte -> byte -> bool) :
  forallb (fun x => forallb (p x) all_bytes) all_bytes = true ->
  forall x y, p x y = true.
Proof.
  intros H x y.
  apply (forall_byte (p x)). revert x.
  apply (forall_byte (fun x => forallb (p x) all_bytes)). exact H.
Qed.

Ltac by_bytes2 a b :=
  revert a b;
  match goal with
  | |- forall a b, @?P a b = true => apply (forall_byte2 P)
  end; vm_compute; reflexivity.

(** Induction on a list three elements at a time. *)
Lemma list_ind3 (A : Type) (P : list A -> Prop) :
  P [] ->
  (forall a, P [a]) ->
  (forall a b, P [a; b]) ->
  (forall a b c l, P l -> P (a :: b :: c :: l)) ->
  forall l, P l.
Proof.
  intros H0 H1 H2 H3.
  assert (H : forall l, P l /\ (forall a, P (a :: l)) /\
                        (forall a b, P (a :: b :: l))).
  { induction l as [|x l [IH0 [IH1 IH2]]].
    - repeat split; auto.
    - repeat split; auto. }
  intro l. apply H.
Qed.

Module Base64UrlFacts.
Import Base64Url.
Local Open Scope N_scope.

Lemma sextet_char_roundtrip (n : N) :
  n < 64 -> sextet_of_char (char_of_sextet n) = Some n.
Proof.
  intro H.
  assert (G : forallb (fun k => match sextet_of_char (char_of_sextet (N.of_nat k)) with
                                | Some m => m =? N.of_nat k
                                | None => false
                                end) (seq 0 64) = true) by (vm_compute; reflexivity).
  rewrite forallb_forall in G.
  specialize (G (N.to_nat n)). rewrite N2Nat.id in G.
  assert (I : In (N.to_nat n) (seq 0 64)) by (apply in_seq; lia).
  specialize (G I).
  destruct (sextet_of_char (char_of_sextet n)) as [m|]; [|discriminate].
  apply N.eqb_eq in G. congruence.
Qed.

Lemma sextet1_lt (a : byte) : sextet1 a < 64.
Proof.
  apply N.ltb_lt. revert a.
  apply (forall_byte (fun a => sextet1 a <? 64)). vm_compute. reflexivity.
Qed.

Lemma sextet2_lt (a b : byte) : sextet2 a b < 64.
Proof. apply N.ltb_lt. by_bytes2 a b. Qed.

Lemma sextet3_lt (b c : byte) : sextet3 b c < 64.
Proof. apply N.ltb_lt. by_bytes2 b c. Qed.

Lemma sextet4_lt (c : byte) : sextet4 c < 64.
Proof.
  apply N.ltb_lt. revert c.
  apply (forall_byte (fun c => sextet4 c <? 64)). vm_compute. reflexivity.
Qed.

Lemma octet1_sextets (a b : byte) : octet1 (sextet1 a) (sextet2 a b) = a.
Proof. apply Byte.byte_dec_bl. by_bytes2 a b. Qed.

Lemma octet3_sextets (b c : byte) : octet3 (sextet3 b c) (sextet4 c) = c.
Proof. apply Byte.byte_dec_bl. by_bytes2 b c. Qed.

(** The middle byte is spread over the second and third groups, which
    between them depend on all three bytes: its two halves are recovered
    one at a time. *)
Lemma sextet2_low (a b : byte) :
  N.land (sextet2 a b) 15 = N.shiftr (Byte.to_N b) 4.
Proof. apply N.eqb_eq. by_bytes2 a b. Qed.

Lemma sextet3_high (b c : byte) :
  N.shiftr (sextet3 b c) 2 = N.land (Byte.to_N b) 15.
Proof. apply N.eqb_eq. by_bytes2 b c. Qed.

Lemma byte_halves (b : byte) :
  byte_of_N (N.lor (N.shiftl (N.shiftr (Byte.to_N b) 4) 4)
                   (N.land (Byte.to_N b) 15)) = b.
Proof.
  apply Byte.byte_dec_bl. revert b.
  apply (forall_byte (fun b => Byte.eqb (byte_of_N _) b)).
  vm_compute. reflexivity.
Qed.

Lemma octet2_sextets (a b c : byte) : octet2 (sextet2 a b) (sextet3 b c) = b.
Proof.
  unfold octet2. rewrite sextet2_low, sextet3_high. apply byte_halves.
Qed.

(** A last group of one or two bytes leaves no bit set past the last byte. *)
Lemma sextet2_tail (a : byte) : N.land (sextet2 a x00) 15 = 0.
Proof. rewrite sextet2_low. reflexivity. Qed.

Lemma sextet3_tail (b : byte) : N.land (sextet3 b x00) 3 = 0.
Proof.
  apply N.eqb_eq. revert b.
  apply (forall_byte (fun b => N.land (sextet3 b x00) 3 =? 0)).
  vm_compute. reflexivity.
Qed.

Lemma sextet_of_char1 a : sextet_of_char (char_of_sextet (sextet1 a)) = Some (sextet1 a).
Proof. apply sextet_char_roundtrip, sextet1_lt. Qed.
Lemma sextet_of_char2 a b :
  sextet_of_char (char_of_sextet (sextet2 a b)) = Some (sextet2 a b).
Proof. apply sextet_char_roundtrip, sextet2_lt. Qed.
Lemma sextet_of_char3 b c :
  sextet_of_char (char_of_sextet (sextet3 b c)) = Some (sextet3 b c).
Proof. apply sextet_char_roundtrip, sextet3_lt. Qed.
Lemma sextet_of_char4 c : sextet_of_char (char_of_sextet (sextet4 c)) = Some (sextet4 c).
Proof. apply sextet_char_roundtrip, sextet4_lt. Qed.

(** What the decoder does on each of the encoder's four shapes. *)
Lemma decode_encode_step (a b c : byte) (rest : bytes) :
  decode (encode (a :: b :: c :: rest)) =
  match decode (encode rest) with
  | Some tl => Some (a :: b :: c :: tl)
  | None => None
  end.
Proof.
  cbn [encode decode].
  rewrite sextet_of_char1, sextet_of_char2, sextet_of_char3, sextet_of_char4.
  rewrite octet1_sextets, octet2_sextets, octet3_sextets. reflexivity.
Qed.

Lemma decode_encode (b : bytes) : decode (encode b) = Some b.
Proof.
  induction b as [|a|a b|a b c rest IH] using list_ind3.
  - reflexivity.
  - cbn [encode decode].
    rewrite sextet_of_char1, sextet_of_char2, sextet2_tail, octet1_sextets.
    reflexivity.
  - cbn [encode decode].
    rewrite sextet_of_char1, sextet_of_char2, sextet_of_char3.
    rewrite sextet3_tail, octet1_sextets, octet2_sextets. reflexivity.
  - rewrite decode_encode_step, IH. reflexivity.
Qed.

End Base64UrlFacts.

(** The encoder on the test vectors of RFC 4648 (the characters of
    ["foobar"]), where it agrees with unpadded base64, and on bytes whose
    groups fall on the two URL-safe characters. *)
Example encode_rfc4648 :
  map Base64Url.encode
      [[]; [x66]; [x66; x6f]; [x66; x6f; x6f]; [x66; x6f; x6f; x62];
       [x66; x6f; x6f; x62; x61]; [x66; x6f; x6f; x62; x61; x72]]
  = [""; "Zg"; "Zm8"; "Zm9v"; "Zm9vYg"; "Zm9vYmE"; "Zm9vYmFy"].
Proof. reflexivity. Qed.

Example encode_url_safe : Base64Url.encode [xfb; xef; xff] = "--__".
Proof. reflexivity. Qed.

Example decode_malformed :
  map Base64Url.decode ["Z"; "Zh"; "Zm9="; "Zm+v"; "Zm9vYmF"]
  = [None; None; None; None; None].
Proof. reflexivity. Qed.

(** C1. Decoding what the encoder of the finish payloads produced gives the
    bytes back: [from_base64 (toB64URLSafeNoPadding b)] returns [b] for every
    byte sequence [b], among them the empty one and, at every length, the
    all-zero and the all-0xFF ones. *)
Theorem encoder_roundtrip :
  (forall b : bytes, from_base64 (toB64URLSafeNoPadding b) = Returned b) /\
  from_base64 (toB64URLSafeNoPadding []) = Returned [] /\
  (forall n, from_base64 (toB64URLSafeNoPadding (repeat x00 n))
             = Returned (repeat x00 n)) /\
  (forall n, from_base64 (toB64URLSafeNoPadding (repeat xff n))
             = Returned (repeat xff n)).
Proof.
  assert (H : forall b, from_base64 (toB64URLSafeNoPadding b) = Returned b).
  { intro b. unfold from_base64, toB64URLSafeNoPadding.
    rewrite Base64UrlFacts.decode_encode. reflexivity. }
  repeat split; intros; apply H.
Qed.

(** ** The redirect validator *)

Lemma endsWith_refl (s : string) : endsWith s s = true.
Proof. destruct s; cbn [endsWith]; rewrite String.eqb_refl; reflexivity. Qed.

Lemma endsWith_cons (c : ascii) (s suffix : string) :
  endsWith s suffix = true -> endsWith (String c s) suffix = true.
Proof.
  intro H. cbn [endsWith].
  destruct (String.eqb (String c s) suffix); [reflexivity | exact H].
Qed.

Lemma endsWith_ends_with (s suffix : string) :
  endsWith s suffix = true <-> ends_with s suffix.
Proof.
  split.
  - induction s as [|c s IH]; cbn [endsWith].
    + destruct (String.eqb_spec EmptyString suffix) as [E|E]; [|discriminate].
      intros _. exists EmptyString. exact E.
    + destruct (String.eqb_spec (String c s) suffix) as [E|E].
      * intros _. exists EmptyString. exact E.
      * intro H. destruct (IH H) as [p Hp].
        exists (String c p). cbn. congruence.
  - intros [p ->]. induction p as [|c p IH].
    + apply endsWith_refl.
    + cbn [append]. apply endsWith_cons, IH.
Qed.

Lemma In2 (x a b : string) : In x [a; b] <-> x = a \/ x = b.
Proof. cbn. intuition congruence. Qed.

(** The validator and the rule with the two hosts told apart. *)
Lemma isWhitelistedRedirect_rule (isDevBuild : bool) (u : URL) :
  isWhitelistedRedirect isDevBuild u = true <-> isAllowedRedirect_amended isDevBuild u.
Proof.
  unfold isWhitelistedRedirect, isAllowedRedirect_amended.
  unfold localLoopbackDomain, productionParentDomains, customApplicationSchemes.
  rewrite !orb_true_iff, andb_true_iff, !endsWith_ends_with, !String.eqb_eq.
  rewrite In2. split.
  - intros [[[[[D L]|P]|P]|S]|S]; auto.
    + right; left. exists ".ente.io". rewrite In2. auto.
    + right; left. exists ".ente.sh". rewrite In2. auto.
  - intros [[D L]|[[d [Hd P]]|[S|S]]]; auto.
    + tauto.
    + rewrite In2 in Hd. destruct Hd as [-> | ->]; tauto.
Qed.

Lemma host_without_port (u : URL) : port u = EmptyString -> host u = hostname u.
Proof. intro P. unfold host. rewrite P. reflexivity. Qed.

Lemma not_ends_with (s suffix : string) :
  endsWith s suffix = false -> ~ ends_with s suffix.
Proof. intros F H. apply endsWith_ends_with in H. congruence. Qed.

(** C3, as stated, fails on the code whichever string of the URL "host" is.
    Read as the host name, the rule allows [https://x.ente.io:8443], which
    the validator rejects in a production build. Read as the host with its
    port, the rule rejects [http://localhost:3000] in a development build,
    which the validator allows (as the claim itself says it must). *)
Lemma isWhitelistedRedirect_iff_counterexample :
  (isWhitelistedRedirect false (mkURL "https:" "x.ente.io" "8443") = false /\
   isAllowedRedirect hostname false (mkURL "https:" "x.ente.io" "8443")) /\
  (isWhitelistedRedirect true (mkURL "http:" "localhost" "3000") = true /\
   ~ isAllowedRedirect host true (mkURL "http:" "localhost" "3000")).
Proof.
  split; split.
  - reflexivity.
  - right; left. exists ".ente.io". split; [left; reflexivity|].
    exists "x". reflexivity.
  - reflexivity.
  - unfold isAllowedRedirect, localLoopbackDomain, productionParentDomains,
      customApplicationSchemes.
    intros [[_ H]|[[d [Hd H]]|H]].
    + revert H. apply not_ends_with. reflexivity.
    + rewrite In2 in Hd. destruct Hd as [-> | ->]; revert H;
        apply not_ends_with; reflexivity.
    + rewrite In2 in H. destruct H as [H|H]; discriminate H.
Qed.

(** C3, amended. The validator allows a URL exactly when (a) the build is a
    development build and the host name of the URL, without its port, ends
    with [localhost], or (b) the host of the URL, which is the host name
    followed by [:] and the port when the URL names one, ends with [.ente.io]
    or [.ente.sh], or (c) the scheme is [ente:] or [enteauth:]. For a URL
    that names no port the two hosts are one string and the rule holds as the
    specification words it. So [https://x.ente.io/path] is allowed,
    [https://evil.example.com] is rejected, [ente://open] is allowed, and
    [http://localhost:3000] is allowed in a development build and in no
    other. *)
Theorem isWhitelistedRedirect_iff :
  (forall isDevBuild u,
     isWhitelistedRedirect isDevBuild u = true
     <-> isAllowedRedirect_amended isDevBuild u) /\
  (forall isDevBuild u,
     port u = EmptyString ->
     (isWhitelistedRedirect isDevBuild u = true
      <-> isAllowedRedirect hostname isDevBuild u) /\
     (isWhitelistedRedirect isDevBuild u = true
      <-> isAllowedRedirect host isDevBuild u)) /\
  (forall isDevBuild,
     isWhitelistedRedirect isDevBuild (mkURL "https:" "x.ente.io" "") = true /\
     isWhitelistedRedirect isDevBuild (mkURL "https:" "evil.example.com" "") = false /\
     isWhitelistedRedirect isDevBuild (mkURL "ente:" "open" "") = true /\
     isWhitelistedRedirect isDevBuild (mkURL "http:" "localhost" "3000") = isDevBuild).
Proof.
  split; [exact isWhitelistedRedirect_rule|]. split.
  - intros dev u P. rewrite isWhitelistedRedirect_rule.
    unfold isAllowedRedirect_amended, isAllowedRedirect.
    rewrite (host_without_port u P). split; reflexivity.
  - intros [|]; repeat split; reflexivity.
Qed.

Lemma isWhitelistedRedirect_iff_witness :
  isAllowedRedirect hostname true (mkURL "https:" "localhost" "") /\
  isAllowedRedirect host false (mkURL "https:" "accounts.ente.sh" "").
Proof.
  destruct isWhitelistedRedirect_iff as [_ [A _]].
  split.
  - apply (A true (mkURL "https:" "localhost" "") eq_refl). reflexivity.
  - apply (A false (mkURL "https:" "accounts.ente.sh" "") eq_refl). reflexivity.
Defined.

(** C10. The validator matches by string suffix, not by domain label. For a
    URL whose scheme is not one of the application schemes (an [https] URL,
    say), a production build allows it exactly when its host ends with
    [.ente.io] or [.ente.sh], and a development build exactly when, besides,
    its host name ends with [localhost]. So outside a development build an
    [https] URL whose host is the bare apex domain [ente.io] or [ente.sh] is
    rejected, the host ending with neither suffix, while [x.ente.io] is
    allowed; and in a development build every URL whose host name ends with
    the characters [localhost] is accepted, [evil-localhost] for one, which a
    production build rejects, while [localhost.example.com] is rejected. *)
Theorem redirect_matches_by_suffix :
  (forall u,
     protocol u <> "ente:" -> protocol u <> "enteauth:" ->
     (isWhitelistedRedirect false u = true
      <-> ends_with (host u) ".ente.io" \/ ends_with (host u) ".ente.sh") /\
     (isWhitelistedRedirect true u = true
      <-> ends_with (hostname u) "localhost" \/
          ends_with (host u) ".ente.io" \/ ends_with (host u) ".ente.sh")) /\
  (forall u,
     protocol u = "https:" -> host u = "ente.io" \/ host u = "ente.sh" ->
     isWhitelistedRedirect false u = false) /\
  (forall u,
     ends_with (hostname u) "localhost" -> isWhitelistedRedirect true u = true) /\
  isWhitelistedRedirect true (mkURL "https:" "evil-localhost" "") = true /\
  isWhitelistedRedirect false (mkURL "https:" "evil-localhost" "") = false /\
  isWhitelistedRedirect false (mkURL "https:" "x.ente.io" "") = true /\
  isWhitelistedRedirect true (mkURL "https:" "localhost.example.com" "") = false.
Proof.
  split; [|repeat split].
  - intros u S1 S2.
    apply String.eqb_neq in S1. apply String.eqb_neq in S2.
    unfold isWhitelistedRedirect. rewrite S1, S2. cbn [andb].
    rewrite !orb_false_r, !orb_true_iff, !endsWith_ends_with.
    split; split; intuition discriminate.
  - intros u P [H|H]; unfold isWhitelistedRedirect; rewrite P, H; reflexivity.
  - intros u H. unfold isWhitelistedRedirect.
    apply endsWith_ends_with in H. rewrite H. reflexivity.
Qed.

Lemma redirect_matches_by_suffix_witness :
  isWhitelistedRedirect false (mkURL "https:" "ente.io" "") = false /\
  isWhitelistedRedirect false (mkURL "https:" "ente.sh" "") = false /\
  isWhitelistedRedirect true (mkURL "http:" "evil-localhost" "8080") = true /\
  isWhitelistedRedirect false (mkURL "https:" "api.ente.io" "") = true.
Proof.
  destruct redirect_matches_by_suffix as [I [A [B _]]].
  split; [|split; [|split]].
  - apply A; [reflexivity | left; reflexivity].
  - apply A; [reflexivity | right; reflexivity].
  - apply B. exists "evil-". reflexivity.
  - assert (S1 : protocol (mkURL "https:" "api.ente.io" "") <> "ente:")
      by discriminate.
    assert (S2 : protocol (mkURL "https:" "api.ente.io" "") <> "enteauth:")
      by discriminate.
    destruct (I (mkURL "https:" "api.ente.io" "") S1 S2) as [[_ P] _].
    apply P. left. exists "api". reflexivity.
Defined.

Lemma last_char_app (s t : string) :
  t <> EmptyString -> last_char (s ++ t) = last_char t.
Proof.
  intro T. induction s as [|c s IH]; [reflexivity|].
  cbn [append last_char]. rewrite IH.
  destruct (s ++ t) eqn:E; [|reflexivity].
  destruct s; cbn in E; [contradiction | discriminate].
Qed.

Lemma last_char_digit (s : string) (c : ascii) :
  all_digits s = true -> last_char s = Some c -> is_digit c = true.
Proof.
  induction s as [|d s IH]; cbn [all_digits last_char]; [discriminate|].
  rewrite andb_true_iff. intros [D A].
  destruct s; [congruence | auto].
Qed.

Lemma endsWith_last_char (s suffix : string) :
  suffix <> EmptyString -> endsWith s suffix = true ->
  last_char s = last_char suffix.
Proof.
  intros N H. apply endsWith_ends_with in H. destruct H as [p ->].
  apply last_char_app, N.
Qed.

Lemma host_with_port (u : URL) (suffix : string) (c : ascii) :
  port u <> EmptyString -> all_digits (port u) = true ->
  last_char suffix = Some c -> is_digit c = false ->
  endsWith (host u) suffix = false.
Proof.
  intros P D L N.
  destruct (endsWith (host u) suffix) eqn:E; [|reflexivity].
  assert (S : suffix <> EmptyString) by (intros ->; discriminate).
  apply (endsWith_last_char _ _ S) in E.
  unfold host in E. destruct (String.eqb_spec (port u) "") as [Q|_]; [contradiction|].
  rewrite last_char_app in E by discriminate.
  rewrite (last_char_app ":" (port u) P), L in E.
  rewrite (last_char_digit _ _ D E) in N. discriminate.
Qed.

(** X1. A URL that names a port is matched against the production domains with
    the port included, so it never matches them: with an explicit port the
    validator allows only a host name ending in [localhost] in a development
    build, and the application schemes. [https://x.ente.io:8443] is
    rejected in every build. *)
Theorem redirect_with_explicit_port (isDevBuild : bool) (u : URL) :
  port u <> EmptyString -> all_digits (port u) = true ->
  isWhitelistedRedirect isDevBuild u
  = (isDevBuild && endsWith (hostname u) "localhost")
    || String.eqb (protocol u) "ente:" || String.eqb (protocol u) "enteauth:".
Proof.
  intros P D. unfold isWhitelistedRedirect.
  rewrite (host_with_port u ".ente.io" "o" P D eq_refl eq_refl).
  rewrite (host_with_port u ".ente.sh" "h" P D eq_refl eq_refl).
  rewrite !orb_false_r. reflexivity.
Qed.

Lemma redirect_with_explicit_port_witness :
  isWhitelistedRedirect false (mkURL "https:" "x.ente.io" "8443") = false /\
  isWhitelistedRedirect true (mkURL "https:" "x.ente.io" "8443") = false.
Proof.
  split.
  - rewrite (redirect_with_explicit_port false (mkURL "https:" "x.ente.io" "8443"));
      [reflexivity | discriminate | reflexivity].
  - rewrite (redirect_with_explicit_port true (mkURL "https:" "x.ente.io" "8443"));
      [reflexivity | discriminate | reflexivity].
Defined.

(** X12. The development flag only adds the hosts that end in [localhost]:
    whatever a production build allows a development build allows too, and a
    URL allowed in a development build alone has a host name ending in
    [localhost]. *)
Theorem development_build_only_adds_localhost (u : URL) :
  (isWhitelistedRedirect false u = true -> isWhitelistedRedirect true u = true) /\
  (isWhitelistedRedirect true u = true ->
   isWhitelistedRedirect false u = false ->
   ends_with (hostname u) "localhost") /\
  (ends_with (hostname u) "localhost" -> isWhitelistedRedirect true u = true).
Proof.
  unfold isWhitelistedRedirect. cbn [andb].
  rewrite <- endsWith_ends_with.
  destruct (endsWith (hostname u) "localhost"),
           (endsWith (host u) ".ente.io"), (endsWith (host u) ".ente.sh"),
           (String.eqb (protocol u) "ente:"), (String.eqb (protocol u) "enteauth:");
    cbn; repeat split; intros; congruence.
Qed.

Lemma development_build_only_adds_localhost_witness :
  isWhitelistedRedirect true (mkURL "https:" "accounts.ente.io" "") = true /\
  ends_with "localhost" "localhost".
Proof.
  destruct (development_build_only_adds_localhost (mkURL "https:" "accounts.ente.io" ""))
    as [A _].
  destruct (development_build_only_adds_localhost (mkURL "http:" "localhost" "3000"))
    as [_ [B _]].
  split; [apply A; reflexivity | apply B; reflexivity].
Defined.

(** ** The service *)

Lemma skipn_length_app (A : Type) (l l' : list A) :
  skipn (length l) (l ++ l') = l'.
Proof. induction l as [|x l IH]; [reflexivity | exact IH]. Qed.

Lemma requests_of_same_world (A : Type) (m : M A) (w : World) :
  snd (m w) = w -> requests_of m w = [].
Proof.
  intro H. unfold requests_of. rewrite H.
  rewrite <- (app_nil_r (network w)) at 2. apply skipn_length_app.
Qed.

Lemma requests_of_app (A : Type) (m : M A) (w : World) (rs : list Request) :
  network (snd (m w)) = (network w ++ rs)%list -> requests_of m w = rs.
Proof. intro H. unfold requests_of. rewrite H. apply skipn_length_app. Qed.

Section ServiceFacts.

Variable env : Outside.

(** C4. With no auth token in storage (none, or an empty one), listing,
    renaming and deleting passkeys each return [undefined], issue no request
    and raise nothing: the state after the call is the state before it. *)
Theorem management_without_token (w : World) (id name : string) :
  truthy (token w) = None ->
  (getPasskeys env w = (Returned JsUndefined, w) /\
   requests_of (getPasskeys env) w = []) /\
  (renamePasskey env id name w = (Returned JsUndefined, w) /\
   requests_of (renamePasskey env id name) w = []) /\
  (deletePasskey env id w = (Returned JsUndefined, w) /\
   requests_of (deletePasskey env id) w = []).
Proof.
  intro H.
  assert (G : getPasskeys env w = (Returned JsUndefined, w)).
  { unfold getPasskeys, bind, getToken. rewrite H. reflexivity. }
  assert (R : renamePasskey env id name w = (Returned JsUndefined, w)).
  { unfold renamePasskey, try_catch, bind, getToken. rewrite H. reflexivity. }
  assert (D : deletePasskey env id w = (Returned JsUndefined, w)).
  { unfold deletePasskey, try_catch, bind, getToken. rewrite H. reflexivity. }
  repeat split; try assumption;
    apply requests_of_same_world; rewrite ?G, ?R, ?D; reflexivity.
Qed.

(** C5. With no auth token in storage, beginning a registration fails with
    the error that stands for "authentication required", [Error("Missing
    accounts token")], before any request is issued. The header builder
    raises it, so the failure is the same whatever the transport would have
    answered, and [registerPasskey] ends with it too. *)
Theorem registration_begin_without_token (w : World) (name : string) :
  truthy (token w) = None ->
  accountsAuthenticatedRequestHeaders w
    = (Thrown (Error "Missing accounts token"), w) /\
  getPasskeyRegistrationOptions env w
    = (Thrown (Error "Missing accounts token"), w) /\
  requests_of (getPasskeyRegistrationOptions env) w = [] /\
  registerPasskey env name w = (Thrown (Error "Missing accounts token"), w) /\
  requests_of (registerPasskey env name) w = [].
Proof.
  intro H.
  assert (A : accountsAuthenticatedRequestHeaders w
              = (Thrown (Error "Missing accounts token"), w)).
  { unfold accountsAuthenticatedRequestHeaders, bind, getToken.
    rewrite H. reflexivity. }
  assert (G : getPasskeyRegistrationOptions env w
              = (Thrown (Error "Missing accounts token"), w)).
  { unfold getPasskeyRegistrationOptions, bind at 1. rewrite A. reflexivity. }
  assert (R : registerPasskey env name w
              = (Thrown (Error "Missing accounts token"), w)).
  { unfold registerPasskey, bind at 1. rewrite G. reflexivity. }
  repeat split; try assumption;
    apply requests_of_same_world; rewrite ?G, ?R; reflexivity.
Qed.

(** What a successful begin call did: the token was there, one [GET] went
    out with it, and nothing else changed. *)
Lemma getPasskeyRegistrationOptions_returned
    (w w1 : World) (r : PasskeyRegistrationOptions) :
  getPasskeyRegistrationOptions env w = (Returned r, w1) ->
  exists t headers,
    truthy (token w) = Some t /\
    field "X-Auth-Token" headers = JsString t /\
    w1 = sent (mkRequest GET (apiOrigin env ++ "/passkeys/registration/begin")
                         JsUndefined JsUndefined headers) w.
Proof.
  unfold getPasskeyRegistrationOptions, accountsAuthenticatedRequestHeaders.
  unfold bind, getToken, localStorage_getItem, fetch_with_headers, nullToUndefined.
  destruct (truthy (token w)) as [t|] eqn:T; [|discriminate].
  cbn [String.eqb Ascii.eqb Bool.eqb].
  destruct (truthy (clientPackage w)) as [p|];
    cbv [ret throw lift];
    match goal with
    | |- context [fetch env ?n ?q] => destruct (fetch env n q) as [res|e]
    end; try discriminate;
    (destruct (ok res); cbn [negb]; [|discriminate]);
    intro H; injection H as _ <-;
    eexists; eexists; (split; [reflexivity | split; [|reflexivity]]);
    reflexivity.
Qed.

Lemma truthy_Some (x : option string) (t : string) :
  truthy x = Some t -> x = Some t.
Proof.
  destruct x as [s|]; cbn; [|discriminate].
  destruct (String.eqb s ""); congruence.
Qed.

(** The ceremony after a successful begin call, up to the prompt. *)
Lemma registerPasskey_after_begin
    (name : string) (w w1 : World) (r : PasskeyRegistrationOptions)
    (cb ub : bytes) :
  getPasskeyRegistrationOptions env w = (Returned r, w1) ->
  from_base64 (challenge (publicKey (options r))) = Returned cb ->
  from_base64 (user_id (user (publicKey (options r)))) = Returned ub ->
  registerPasskey env name w =
  (credential <- bind (credentials_create env (assign_decoded (options r) cb ub))
                      (ensure env) ;;
   finishPasskeyRegistration env name credential (sessionID r) ;;;
   ret tt) w1.
Proof.
  intros G C U. unfold registerPasskey.
  unfold bind at 1. rewrite G.
  unfold bind at 1. unfold lift at 1. rewrite C.
  unfold bind at 1. unfold lift at 1. rewrite U.
  reflexivity.
Qed.

(** C6. When the begin call and the decoding went through and
    [navigator.credentials.create] rejects with [e], [registerPasskey] rejects
    with that same [e]: nothing catches, wraps or replaces it, nothing is
    logged and no finish request goes out. *)
Theorem registerPasskey_propagates_broker_failure
    (name : string) (w w1 : World) (r : PasskeyRegistrationOptions)
    (cb ub : bytes) (e : JsError) :
  getPasskeyRegistrationOptions env w = (Returned r, w1) ->
  from_base64 (challenge (publicKey (options r))) = Returned cb ->
  from_base64 (user_id (user (publicKey (options r)))) = Returned ub ->
  navigator_credentials_create env (prompts w) (assign_decoded (options r) cb ub)
    = Thrown e ->
  registerPasskey env name w
    = (Thrown e, prompted (assign_decoded (options r) cb ub) w1) /\
  network (snd (registerPasskey env name w)) = network w1 /\
  errorLog (snd (registerPasskey env name w)) = errorLog w.
Proof.
  intros G C U B.
  rewrite (registerPasskey_after_begin name w w1 r cb ub G C U).
  destruct (getPasskeyRegistrationOptions_returned w w1 r G)
    as [t [headers [_ [_ ->]]]].
  unfold bind, credentials_create. cbn [prompts sent].
  rewrite B. repeat split.
Qed.

(** X2. With a token in storage, each management operation issues its one
    request with the token in the [X-Auth-Token] header and returns the
    [data] of the response. A failure of the transport reaches the caller as
    it is; [renamePasskey] and [deletePasskey] log it first, [getPasskeys]
    does not. *)
Theorem management_with_token (w : World) (id name t : string) :
  truthy (token w) = Some t ->
  let auth := JsObject [("X-Auth-Token", JsString t)] in
  let list_request :=
    mkRequest GET (ENDPOINT env ++ "/passkeys") JsUndefined (JsObject []) auth in
  let rename_request :=
    mkRequest PATCH (ENDPOINT env ++ "/passkeys/" ++ id) (JsObject [])
              (JsObject [("friendlyName", JsString name)]) auth in
  let delete_request :=
    mkRequest DELETE (ENDPOINT env ++ "/passkeys/" ++ id) (JsObject [])
              (JsObject []) auth in
  getPasskeys env w
    = (match HTTPService env (network w) list_request with
       | Returned response => Returned (data response)
       | Thrown e => Thrown e
       end, sent list_request w) /\
  renamePasskey env id name w
    = match HTTPService env (network w) rename_request with
      | Returned response => (Returned (data response), sent rename_request w)
      | Thrown e =>
          (Thrown e, logged "rename passkey failed" e (sent rename_request w))
      end /\
  deletePasskey env id w
    = match HTTPService env (network w) delete_request with
      | Returned response => (Returned (data response), sent delete_request w)
      | Thrown e =>
          (Thrown e, logged "delete passkey failed" e (sent delete_request w))
      end.
Proof.
  intros T auth list_request rename_request delete_request.
  split; [|split].
  - unfold getPasskeys, bind, getToken. rewrite T.
    unfold HTTPService_get, HTTPService_request.
    fold auth. fold list_request.
    destruct (HTTPService env (network w) list_request); reflexivity.
  - unfold renamePasskey, try_catch, bind, getToken. rewrite T.
    unfold HTTPService_patch, HTTPService_request.
    fold auth. fold rename_request.
    destruct (HTTPService env (network w) rename_request); reflexivity.
  - unfold deletePasskey, try_catch, bind, getToken. rewrite T.
    unfold HTTPService_delete, HTTPService_request.
    fold auth. fold delete_request.
    destruct (HTTPService env (network w) delete_request); reflexivity.
Qed.

(** X3. When the begin endpoint of a registration answers with a status that is
    not 2xx, [getPasskeyRegistrationOptions] throws an [Error] whose message
    names the URL and the status, and the body is not read. *)
Theorem registration_begin_server_error
    (w : World) (headers : JsValue) (res : FetchResponse) :
  accountsAuthenticatedRequestHeaders w = (Returned headers, w) ->
  let url := apiOrigin env ++ "/passkeys/registration/begin" in
  let request := mkRequest GET url JsUndefined JsUndefined headers in
  fetch env (network w) request = Returned res ->
  ok res = false ->
  getPasskeyRegistrationOptions env w
  = (Thrown (Error ("Failed to fetch " ++ url ++ ": HTTP " ++ string_of_N (status res))),
     sent request w).
Proof.
  intros A url request F K.
  unfold getPasskeyRegistrationOptions. unfold bind at 1. rewrite A.
  unfold bind, fetch_with_headers. fold url. fold request.
  rewrite F, K. reflexivity.
Qed.

(** The finish request of a registration. *)
Lemma finishPasskeyRegistration_sends
    (friendlyName : string) (credential : Credential) (sessionID : string)
    (w : World) (t : string) :
  token w = Some t ->
  network (snd (finishPasskeyRegistration env friendlyName credential sessionID w))
  = (network w ++
     [mkRequest POST (ENDPOINT env ++ "/passkeys/registration/finish")
        (JsonText (JsObject [
           ("id", JsString (cred_id credential));
           ("rawId", JsString (cred_id credential));
           ("type", JsString (cred_type credential));
           ("response", JsObject [
              ("attestationObject",
                JsString (toB64URLSafeNoPadding
                            (Uint8Array (attestationObject (cred_response credential)))));
              ("clientDataJSON",
                JsString (toB64URLSafeNoPadding
                            (Uint8Array (clientDataJSON (cred_response credential)))))])]))
        (JsObject [("friendlyName", JsString friendlyName);
                   ("sessionID", JsString sessionID)])
        (JsObject [("X-Auth-Token", JsString t)])])%list.
Proof.
  intro T.
  unfold finishPasskeyRegistration, bind, getToken, ensure.
  rewrite T. cbv [ret]. unfold HTTPService_post, HTTPService_request.
  match goal with
  | |- context [HTTPService env ?n ?q] => destruct (HTTPService env n q)
  end; reflexivity.
Qed.


(** C8. Beginning an authentication issues one [POST] of the login session
    identifier, with no headers at all and so no auth token header. Its
    outcome is the transport's: the [data] of the response, or the very error
    the transport threw. It is the same in any two states with the same
    request history, whatever token they hold, so no missing token makes
    it fail. *)
Theorem beginPasskeyAuthentication_needs_no_token (sessionId : string) (w : World) :
  let request :=
    mkRequest POST (ENDPOINT env ++ "/users/two-factor/passkeys/begin")
              (JsObject [("sessionID", JsString sessionId)])
              JsUndefined JsUndefined in
  requests_of (beginPasskeyAuthentication env sessionId) w = [request] /\
  req_headers request = JsUndefined /\
  field "X-Auth-Token" (req_headers request) = JsUndefined /\
  fst (beginPasskeyAuthentication env sessionId w)
    = match HTTPService env (network w) request with
      | Returned response => Returned (data response)
      | Thrown e => Thrown e
      end /\
  (forall w' : World,
     network w' = network w ->
     fst (beginPasskeyAuthentication env sessionId w')
       = fst (beginPasskeyAuthentication env sessionId w)).
Proof.
  intro request.
  assert (R : forall v : World,
             beginPasskeyAuthentication env sessionId v
             = match HTTPService env (network v) request with
               | Returned response => (Returned (data response), sent request v)
               | Thrown e =>
                   (Thrown e,
                    logged "begin passkey authentication failed" e (sent request v))
               end).
  { intro v.
    unfold beginPasskeyAuthentication, try_catch, bind, HTTPService_post,
      HTTPService_request.
    fold request. destruct (HTTPService env (network v) request); reflexivity. }
  repeat split.
  - apply requests_of_app. rewrite R.
    destruct (HTTPService env (network w) request); reflexivity.
  - rewrite R. destruct (HTTPService env (network w) request); reflexivity.
  - intros w' N. rewrite !R, N.
    destruct (HTTPService env (network w) request); reflexivity.
Qed.

(** The finish request of an authentication: it goes out whatever the
    state, and whether or not the server then accepts it. *)
Lemma finishPasskeyAuthentication_sends
    (credential : Credential) (sessionId ceremonySessionId : string) (w : World) :
  network (snd (finishPasskeyAuthentication env credential sessionId
                  ceremonySessionId w))
  = (network w ++
     [mkRequest POST (ENDPOINT env ++ "/users/two-factor/passkeys/finish")
        (JsObject [
           ("id", JsString (cred_id credential));
           ("rawId", JsString (cred_id credential));
           ("type", JsString (cred_type credential));
           ("response", JsObject [
              ("authenticatorData",
                JsString (toB64URLSafeNoPadding
                            (Uint8Array (authenticatorData (cred_response credential)))));
              ("clientDataJSON",
                JsString (toB64URLSafeNoPadding
                            (Uint8Array (clientDataJSON (cred_response credential)))));
              ("signature",
                JsString (toB64URLSafeNoPadding
                            (Uint8Array (signature (cred_response credential)))));
              ("userHandle",
                JsString (toB64URLSafeNoPadding
                            (Uint8Array (userHandle (cred_response credential)))))])])
        (JsObject [("sessionID", JsString sessionId);
                   ("ceremonySessionID", JsString ceremonySessionId)])
        JsUndefined])%list.
Proof.
  unfold finishPasskeyAuthentication, try_catch, bind, HTTPService_post,
    HTTPService_request.
  match goal with
  | |- context [HTTPService env ?n ?q] => destruct (HTTPService env n q)
  end; reflexivity.
Qed.

(** C2. Whatever the two strings are, [finishPasskeyAuthentication] issues
    one request, and its parameters are the object made of [sessionId] under
    [sessionID] and [ceremonySessionId] under [ceremonySessionID], each as it
    was given. *)
Theorem finishPasskeyAuthentication_echoes_session_ids
    (credential : Credential) (sessionId ceremonySessionId : string) (w : World) :
  exists request,
    requests_of (finishPasskeyAuthentication env credential sessionId ceremonySessionId) w
      = [request] /\
    req_method request = POST /\
    req_url request = ENDPOINT env ++ "/users/two-factor/passkeys/finish" /\
    req_params request
      = JsObject [("sessionID", JsString sessionId);
                  ("ceremonySessionID", JsString ceremonySessionId)] /\
    field "sessionID" (req_params request) = JsString sessionId /\
    field "ceremonySessionID" (req_params request) = JsString ceremonySessionId.
Proof.
  eexists. split.
  - apply requests_of_app, finishPasskeyAuthentication_sends.
  - repeat split.
Qed.

(** Where the identifiers of the finish payloads come from: [id] and [rawId]
    are both [credential.id], and the raw binary identifier is not read. *)
Lemma finish_payloads_identifiers
    (friendlyName sessionID sessionId ceremonySessionId : string)
    (credential : Credential) (w : World) :
  let registration :=
    finishPasskeyRegistration env friendlyName credential sessionID in
  let authentication :=
    finishPasskeyAuthentication env credential sessionId ceremonySessionId in
  (forall request,
     In request (requests_of registration w) \/
     In request (requests_of authentication w) ->
     field "id" (payload (req_data request)) = JsString (cred_id credential) /\
     field "rawId" (payload (req_data request)) = JsString (cred_id credential)) /\
  (forall rawId' : bytes,
     let credential' :=
       mkCredential (cred_id credential) rawId' (cred_type credential)
                    (cred_response credential) in
     requests_of (finishPasskeyRegistration env friendlyName credential' sessionID) w
       = requests_of registration w /\
     requests_of (finishPasskeyAuthentication env credential' sessionId
                    ceremonySessionId) w
       = requests_of authentication w) /\
  length (requests_of authentication w) = 1 /\
  (token w <> None -> length (requests_of registration w) = 1).
Proof.
  intros registration authentication.
  pose proof (requests_of_app _ authentication w _
                (finishPasskeyAuthentication_sends credential sessionId
                   ceremonySessionId w)) as A.
  assert (Rg : token w = None /\ requests_of registration w = [] \/
               exists t, token w = Some t /\
                 exists request, requests_of registration w = [request] /\
                   field "id" (payload (req_data request))
                     = JsString (cred_id credential) /\
                   field "rawId" (payload (req_data request))
                     = JsString (cred_id credential)).
  { destruct (token w) as [t|] eqn:T.
    - right. exists t. split; [reflexivity|].
      eexists. split.
      + apply requests_of_app.
        apply (finishPasskeyRegistration_sends friendlyName credential sessionID w t T).
      + split; reflexivity.
    - left. split; [reflexivity|].
      apply requests_of_same_world. subst registration.
      unfold finishPasskeyRegistration, bind, getToken, ensure.
      rewrite T. reflexivity. }
  repeat split.
  - destruct H as [H|H].
    + destruct Rg as [[_ E]|[t [_ [q [E [I _]]]]]]; rewrite E in H.
      * destruct H.
      * destruct H as [<-|[]]. exact I.
    + rewrite A in H. destruct H as [<-|[]]. reflexivity.
  - destruct H as [H|H].
    + destruct Rg as [[_ E]|[t [_ [q [E [_ I]]]]]]; rewrite E in H.
      * destruct H.
      * destruct H as [<-|[]]. exact I.
    + rewrite A in H. destruct H as [<-|[]]. reflexivity.
  - rewrite A. reflexivity.
  - intro T. destruct Rg as [[N _]|[t [_ [q [E _]]]]]; [contradiction|].
    rewrite E. reflexivity.
Qed.

(** C9, amended. Every request that either finish call issues carries the
    credential's string identifier [credential.id] under both [id] and
    [rawId]. The raw binary identifier [credential.rawId] is never read or
    encoded: a credential that differs in it alone gives the same requests.
    So the [rawId] sent is the encoded raw binary identifier exactly when
    [credential.id] is already that text. The authentication finish always
    issues its request, the registration finish whenever a token is stored. *)
Theorem finish_payloads_rawId_is_id
    (friendlyName sessionID sessionId ceremonySessionId : string)
    (credential : Credential) (w : World) :
  let registration :=
    finishPasskeyRegistration env friendlyName credential sessionID in
  let authentication :=
    finishPasskeyAuthentication env credential sessionId ceremonySessionId in
  (forall request,
     In request (requests_of registration w) \/
     In request (requests_of authentication w) ->
     field "id" (payload (req_data request)) = JsString (cred_id credential) /\
     field "rawId" (payload (req_data request)) = JsString (cred_id credential)) /\
  (forall rawId' : bytes,
     let credential' :=
       mkCredential (cred_id credential) rawId' (cred_type credential)
                    (cred_response credential) in
     requests_of (finishPasskeyRegistration env friendlyName credential' sessionID) w
       = requests_of registration w /\
     requests_of (finishPasskeyAuthentication env credential' sessionId
                    ceremonySessionId) w
       = requests_of authentication w) /\
  length (requests_of authentication w) = 1 /\
  (token w <> None -> length (requests_of registration w) = 1) /\
  (forall request,
     In request (requests_of registration w) \/
     In request (requests_of authentication w) ->
     (field "rawId" (payload (req_data request))
        = JsString (toB64URLSafeNoPadding (cred_rawId credential))
      <-> cred_id credential = toB64URLSafeNoPadding (cred_rawId credential))).
Proof.
  intros registration authentication.
  destruct (finish_payloads_identifiers friendlyName sessionID sessionId
              ceremonySessionId credential w) as [I [F [A R]]].
  split; [exact I|]. split; [exact F|]. split; [exact A|]. split; [exact R|].
  intros request H. destruct (I request H) as [_ E]. rewrite E.
  split; [intro J; injection J as J; exact J | intros ->; reflexivity].
Qed.

Lemma silent_ret (A : Type) (a : A) : silent (ret a).
Proof. intro w. reflexivity. Qed.

Lemma silent_throw (A : Type) (e : JsError) : silent (@throw A e).
Proof. intro w. reflexivity. Qed.

Lemma silent_lift (A : Type) (c : Completion A) : silent (lift c).
Proof. intro w. reflexivity. Qed.

Lemma silent_bind (A B : Type) (m : M A) (k : A -> M B) :
  silent m -> (forall a, silent (k a)) -> silent (bind m k).
Proof.
  intros Hm Hk w. unfold bind. specialize (Hm w).
  destruct (m w) as [[a|e] w1]; cbn [snd] in *.
  - rewrite (Hk a w1). exact Hm.
  - exact Hm.
Qed.

Lemma silent_ensure (A : Type) (v : option A) : silent (ensure env v).
Proof. destruct v; [apply silent_ret | apply silent_throw]. Qed.

Lemma silent_headers : silent accountsAuthenticatedRequestHeaders.
Proof.
  unfold accountsAuthenticatedRequestHeaders.
  apply silent_bind; [intro w; reflexivity|]. intro tk.
  destruct (truthy tk); [|apply silent_throw].
  apply silent_bind; [intro w; reflexivity|]. intro cp.
  destruct (truthy (nullToUndefined cp)); apply silent_ret.
Qed.

Lemma silent_begin : silent (getPasskeyRegistrationOptions env).
Proof.
  unfold getPasskeyRegistrationOptions.
  apply silent_bind; [apply silent_headers|]. intro headers.
  apply silent_bind; [intro w; reflexivity|]. intro res.
  destruct (negb (ok res)); [apply silent_throw | apply silent_lift].
Qed.

Lemma silent_finish (friendlyName : string) (credential : Credential)
    (sessionID : string) :
  silent (finishPasskeyRegistration env friendlyName credential sessionID).
Proof.
  unfold finishPasskeyRegistration.
  apply silent_bind.
  - apply silent_bind; [intro w; reflexivity | apply silent_ensure].
  - intro t. apply silent_bind; [intro w; reflexivity|].
    intro response. apply silent_ret.
Qed.

(** X4. The registration ceremony writes nothing to the error log, however
    it ends: a failure of the begin call, of the decoding, of the browser or
    of the finish call reaches the caller of [registerPasskey] unlogged. *)
Theorem registerPasskey_logs_nothing (name : string) (w : World) :
  errorLog (snd (registerPasskey env name w)) = errorLog w.
Proof.
  revert w. change (silent (registerPasskey env name)).
  unfold registerPasskey.
  apply silent_bind; [apply silent_begin|]. intro response.
  apply silent_bind; [apply silent_lift|]. intro cb.
  apply silent_bind; [apply silent_lift|]. intro ub.
  apply silent_bind.
  - apply silent_bind; [intro w; reflexivity | apply silent_ensure].
  - intro credential.
    apply silent_bind; [apply silent_finish | intro; apply silent_ret].
Qed.

(** ** Further properties of the service *)

(** X5. With a non-empty token in storage the header builder returns, without
    touching the state, an object whose [X-Auth-Token] is the token. The
    object has an [X-Client-Package] member exactly when a non-empty client
    package is stored, and then it is that value. *)
Theorem headers_carry_token_and_package (w : World) (t : string) :
  truthy (token w) = Some t ->
  exists headers,
    accountsAuthenticatedRequestHeaders w = (Returned headers, w) /\
    field "X-Auth-Token" headers = JsString t /\
    field "X-Client-Package" headers
      = match truthy (clientPackage w) with
        | Some p => JsString p
        | None => JsUndefined
        end.
Proof.
  intro T.
  unfold accountsAuthenticatedRequestHeaders, bind, getToken,
    localStorage_getItem, nullToUndefined.
  rewrite T. cbn [String.eqb Ascii.eqb Bool.eqb].
  destruct (truthy (clientPackage w)) as [p|];
    eexists; (split; [reflexivity|]); split; reflexivity.
Qed.

(** X6. The options are decoded before the browser is asked: when the begin
    call returned and the decoder throws [e] on the [challenge] text, or
    accepts it and throws [e] on the [user.id] text, [registerPasskey] fails
    with [e], with no prompt opened and no request after the begin call. *)
Theorem registerPasskey_stops_on_malformed_options
    (name : string) (w w1 : World) (r : PasskeyRegistrationOptions)
    (e : JsError) :
  getPasskeyRegistrationOptions env w = (Returned r, w1) ->
  from_base64 (challenge (publicKey (options r))) = Thrown e \/
  (exists cb, from_base64 (challenge (publicKey (options r))) = Returned cb /\
              from_base64 (user_id (user (publicKey (options r)))) = Thrown e) ->
  registerPasskey env name w = (Thrown e, w1) /\
  prompts w1 = prompts w /\
  requests_of (registerPasskey env name) w
    = requests_of (getPasskeyRegistrationOptions env) w.
Proof.
  intros G D.
  assert (R : registerPasskey env name w = (Thrown e, w1)).
  { unfold registerPasskey. unfold bind at 1. rewrite G.
    destruct D as [C|[cb [C U]]].
    - unfold bind at 1. unfold lift at 1. rewrite C. reflexivity.
    - unfold bind at 1. unfold lift at 1. rewrite C.
      unfold bind at 1. unfold lift at 1. rewrite U. reflexivity. }
  split; [exact R|]. split.
  - destruct (getPasskeyRegistrationOptions_returned w w1 r G)
      as [t [headers [_ [_ ->]]]]. reflexivity.
  - unfold requests_of. rewrite R, G. reflexivity.
Qed.

(** X7. When the browser resolves the prompt with no credential,
    [registerPasskey] fails and submits nothing: the state is the one after
    the begin call and the prompt. *)
Theorem registerPasskey_without_credential
    (name : string) (w w1 : World) (r : PasskeyRegistrationOptions)
    (cb ub : bytes) :
  getPasskeyRegistrationOptions env w = (Returned r, w1) ->
  from_base64 (challenge (publicKey (options r))) = Returned cb ->
  from_base64 (user_id (user (publicKey (options r)))) = Returned ub ->
  navigator_credentials_create env (prompts w) (assign_decoded (options r) cb ub)
    = Returned None ->
  (exists e, fst (registerPasskey env name w) = Thrown e) /\
  snd (registerPasskey env name w) = prompted (assign_decoded (options r) cb ub) w1 /\
  network (snd (registerPasskey env name w)) = network w1.
Proof.
  intros G C U B.
  rewrite (registerPasskey_after_begin name w w1 r cb ub G C U).
  destruct (getPasskeyRegistrationOptions_returned w w1 r G)
    as [t [headers [_ [_ ->]]]].
  unfold bind, credentials_create. cbn [prompts sent].
  rewrite B. cbn [ensure]. cbv [throw]. cbn [fst snd].
  split; [eexists; reflexivity | split; reflexivity].
Qed.

(** The finish call of a registration, run with a token in storage. *)
Lemma finishPasskeyRegistration_run
    (friendlyName : string) (credential : Credential) (sessionID : string)
    (w : World) (t : string) :
  token w = Some t ->
  let request := registrationFinishRequest env friendlyName credential sessionID t in
  finishPasskeyRegistration env friendlyName credential sessionID w
  = (match HTTPService env (network w) request with
     | Returned response => Returned (data response)
     | Thrown e => Thrown e
     end, sent request w).
Proof.
  intros T request.
  unfold finishPasskeyRegistration, bind, getToken, ensure.
  rewrite T. cbv [ret]. unfold HTTPService_post, HTTPService_request.
  fold (registrationFinishRequest env friendlyName credential sessionID t).
  fold request.
  destruct (HTTPService env (network w) request); reflexivity.
Qed.

(** Where the begin call leaves the state: untouched when no token is
    stored, and otherwise with its one request issued, token in the header. *)
Lemma getPasskeyRegistrationOptions_world (w : World) :
  (truthy (token w) = None /\ snd (getPasskeyRegistrationOptions env w) = w) \/
  (exists t headers,
     truthy (token w) = Some t /\
     field "X-Auth-Token" headers = JsString t /\
     snd (getPasskeyRegistrationOptions env w)
       = sent (registrationBeginRequest env headers) w).
Proof.
  destruct (truthy (token w)) as [t|] eqn:T.
  - right.
    destruct (headers_carry_token_and_package w t T) as [headers [A [X _]]].
    exists t, headers. split; [reflexivity|]. split; [exact X|].
    unfold getPasskeyRegistrationOptions. unfold bind at 1. rewrite A.
    unfold bind, fetch_with_headers.
    fold (registrationBeginRequest env headers).
    destruct (fetch env (network w) (registrationBeginRequest env headers))
      as [res|e]; [|reflexivity].
    destruct (negb (ok res)); [reflexivity|].
    unfold lift. reflexivity.
  - left. split; [reflexivity|].
    unfold getPasskeyRegistrationOptions, accountsAuthenticatedRequestHeaders,
      bind, getToken.
    rewrite T. reflexivity.
Qed.

(** Where [registerPasskey] leaves the state: where the begin call left it,
    or one prompt later, or one prompt and one finish request later. *)
Lemma registerPasskey_world (name : string) (w : World) :
  let w1 := snd (getPasskeyRegistrationOptions env w) in
  snd (registerPasskey env name w) = w1 \/
  exists r o,
    fst (getPasskeyRegistrationOptions env w) = Returned r /\
    (snd (registerPasskey env name w) = prompted o w1 \/
     exists credential,
       snd (registerPasskey env name w)
       = snd (finishPasskeyRegistration env name credential (sessionID r)
                (prompted o w1))).
Proof.
  intro w1. subst w1.
  remember (snd (registerPasskey env name w)) as v eqn:E.
  unfold registerPasskey in E. unfold bind at 1 in E.
  destruct (getPasskeyRegistrationOptions env w) as [[r|e] w1];
    cbn [fst snd] in *; [|left; exact E].
  unfold bind at 1 in E. unfold lift at 1 in E.
  destruct (from_base64 (challenge (publicKey (options r)))) as [cb|e];
    [|left; exact E].
  unfold bind at 1 in E. unfold lift at 1 in E.
  destruct (from_base64 (user_id (user (publicKey (options r))))) as [ub|e];
    [|left; exact E].
  right. exists r, (assign_decoded (options r) cb ub).
  split; [reflexivity|].
  unfold bind at 1 in E. unfold bind at 1 in E.
  unfold credentials_create at 1 in E.
  destruct (navigator_credentials_create env (prompts w1)
              (assign_decoded (options r) cb ub)) as [[credential|]|e].
  - right. exists credential. cbn [ensure] in E. cbv [ret] in E.
    unfold bind in E.
    destruct (finishPasskeyRegistration env name credential (sessionID r)
                (prompted (assign_decoded (options r) cb ub) w1))
      as [[x|e] w3]; exact E.
  - left. exact E.
  - left. exact E.
Qed.

(** X8. [registerPasskey] never retries and never touches storage. However
    it ends, the token and client package are as before, at most one prompt
    was opened, at most two requests were issued, and every request issued
    carries the stored, non-empty token in its [X-Auth-Token] header. *)
Theorem registerPasskey_conduct (name : string) (w : World) :
  let w' := snd (registerPasskey env name w) in
  token w' = token w /\
  clientPackage w' = clientPackage w /\
  (exists ps, prompts w' = (prompts w ++ ps)%list /\ length ps <= 1) /\
  length (requests_of (registerPasskey env name) w) <= 2 /\
  (forall request,
     In request (requests_of (registerPasskey env name) w) ->
     exists t,
       truthy (token w) = Some t /\
       field "X-Auth-Token" (req_headers request) = JsString t).
Proof.
  intro w'. subst w'.
  assert (K : forall v (rs : list Request) ps,
             token v = token w -> clientPackage v = clientPackage w ->
             prompts v = (prompts w ++ ps)%list -> length ps <= 1 ->
             network v = (network w ++ rs)%list -> length rs <= 2 ->
             (forall q, In q rs ->
                exists t, truthy (token w) = Some t /\
                          field "X-Auth-Token" (req_headers q) = JsString t) ->
             snd (registerPasskey env name w) = v ->
             token (snd (registerPasskey env name w)) = token w /\
             clientPackage (snd (registerPasskey env name w)) = clientPackage w /\
             (exists ps0, prompts (snd (registerPasskey env name w))
                          = (prompts w ++ ps0)%list /\ length ps0 <= 1) /\
             length (requests_of (registerPasskey env name) w) <= 2 /\
             (forall request,
                In request (requests_of (registerPasskey env name) w) ->
                exists t, truthy (token w) = Some t /\
                          field "X-Auth-Token" (req_headers request) = JsString t)).
  { intros v rs ps Tk Cp Pr Lp Nw Ln Hd E.
    assert (Q : requests_of (registerPasskey env name) w = rs)
      by (apply requests_of_app; rewrite E; exact Nw).
    rewrite Q, E. repeat split; try assumption.
    exists ps. split; assumption. }
  pose proof (registerPasskey_world name w) as W. cbv zeta in W.
  destruct (getPasskeyRegistrationOptions_world w)
    as [[T B]|[t [headers [T [X B]]]]]; rewrite B in W.
  - (* no token: nothing happened *)
    assert (E : snd (registerPasskey env name w) = w).
    { destruct W as [E|[r [o [F _]]]]; [exact E|].
      exfalso. destruct (getPasskeyRegistrationOptions env w) as [res w1] eqn:G.
      cbn [fst] in F. subst res.
      destruct (getPasskeyRegistrationOptions_returned w w1 r G)
        as [t' [h' [T' _]]]. congruence. }
    apply (K w [] []);
      [ reflexivity | reflexivity
      | rewrite app_nil_r; reflexivity | cbn; lia
      | rewrite app_nil_r; reflexivity | cbn; lia
      | intros q [] | exact E ].
  - set (begin := registrationBeginRequest env headers) in *.
    assert (Hb : forall q, In q [begin] ->
               exists t0, truthy (token w) = Some t0 /\
                          field "X-Auth-Token" (req_headers q) = JsString t0).
    { intros q [<-|[]]. exists t. split; [exact T | exact X]. }
    destruct W as [E|[r [o [_ [E|[credential E]]]]]].
    + apply (K (sent begin w) [begin] []);
        [ reflexivity | reflexivity
        | rewrite app_nil_r; reflexivity | cbn; lia
        | reflexivity | cbn; lia
        | exact Hb | exact E ].
    + apply (K (prompted o (sent begin w)) [begin] [o]);
        [ reflexivity | reflexivity
        | reflexivity | cbn; lia
        | reflexivity | cbn; lia
        | exact Hb | exact E ].
    + pose proof (truthy_Some _ _ T) as T'.
      rewrite (finishPasskeyRegistration_run name credential (sessionID r)
                 (prompted o (sent begin w)) t T') in E.
      cbn [snd] in E.
      set (finish := registrationFinishRequest env name credential (sessionID r) t)
        in *.
      apply (K (sent finish (prompted o (sent begin w))) [begin; finish] [o]);
        [ reflexivity | reflexivity
        | reflexivity | cbn; lia
        | cbn [network sent prompted]; rewrite <- app_assoc; reflexivity
        | cbn; lia
        | | exact E ].
      intros q [<-|[<-|[]]].
      * exists t. split; [exact T | exact X].
      * exists t. split; [exact T | reflexivity].
Qed.

(** X9. Once the browser has handed over a credential, the ceremony ends as
    the finish request ends: [registerPasskey] returns (with no value, the
    answer of the server is dropped) when the transport accepts the finish
    request, and fails with the very error of the transport when it does
    not. *)
Theorem registerPasskey_ends_as_finish_request
    (name : string) (w w1 : World) (r : PasskeyRegistrationOptions)
    (cb ub : bytes) (credential : Credential) :
  getPasskeyRegistrationOptions env w = (Returned r, w1) ->
  from_base64 (challenge (publicKey (options r))) = Returned cb ->
  from_base64 (user_id (user (publicKey (options r)))) = Returned ub ->
  navigator_credentials_create env (prompts w) (assign_decoded (options r) cb ub)
    = Returned (Some credential) ->
  exists t,
    token w = Some t /\
    fst (registerPasskey env name w)
    = match HTTPService env (network w1)
              (registrationFinishRequest env name credential (sessionID r) t) with
      | Returned _ => Returned tt
      | Thrown e => Thrown e
      end.
Proof.
  intros G C U B.
  destruct (getPasskeyRegistrationOptions_returned w w1 r G)
    as [t [headers [T [_ W1]]]].
  apply truthy_Some in T. exists t. split; [exact T|].
  rewrite (registerPasskey_after_begin name w w1 r cb ub G C U).
  unfold bind at 1. unfold bind at 1. unfold credentials_create at 1.
  assert (P1 : prompts w1 = prompts w) by (rewrite W1; reflexivity).
  rewrite P1, B. cbn [ensure]. cbv [ret]. unfold bind.
  assert (T2 : token (prompted (assign_decoded (options r) cb ub) w1) = Some t)
    by (rewrite W1; exact T).
  rewrite (finishPasskeyRegistration_run name credential (sessionID r) _ t T2).
  cbn [network prompted].
  destruct (HTTPService env (network w1)
              (registrationFinishRequest env name credential (sessionID r) t));
    reflexivity.
Qed.

(** The two authentication calls, run. *)
Lemma beginPasskeyAuthentication_run (sessionId : string) (w : World) :
  let request :=
    mkRequest POST (ENDPOINT env ++ "/users/two-factor/passkeys/begin")
              (JsObject [("sessionID", JsString sessionId)])
              JsUndefined JsUndefined in
  beginPasskeyAuthentication env sessionId w
  = match HTTPService env (network w) request with
    | Returned response => (Returned (data response), sent request w)
    | Thrown e =>
        (Thrown e, logged "begin passkey authentication failed" e (sent request w))
    end.
Proof.
  intro request.
  unfold beginPasskeyAuthentication, try_catch, bind, HTTPService_post,
    HTTPService_request.
  fold request. destruct (HTTPService env (network w) request); reflexivity.
Qed.

Lemma finishPasskeyAuthentication_run
    (credential : Credential) (sessionId ceremonySessionId : string) (w : World) :
  let request := authenticationFinishRequest env credential sessionId ceremonySessionId in
  finishPasskeyAuthentication env credential sessionId ceremonySessionId w
  = match HTTPService env (network w) request with
    | Returned response => (Returned (data response), sent request w)
    | Thrown e =>
        (Thrown e, logged "finish passkey authentication failed" e (sent request w))
    end.
Proof.
  intro request.
  unfold finishPasskeyAuthentication, try_catch, bind, HTTPService_post,
    HTTPService_request.
  fold (authenticationFinishRequest env credential sessionId ceremonySessionId).
  fold request. destruct (HTTPService env (network w) request); reflexivity.
Qed.

(** X10. The authentication calls log each failure once and only failures:
    after [beginPasskeyAuthentication] or [finishPasskeyAuthentication] the
    error log has grown by one entry, holding the error that was thrown,
    when the call failed, and is as before when it returned. The finish call
    returns the [data] of the response or fails with the transport's own
    error, the same in any two states with the same request history; neither
    call opens a prompt or changes storage. *)
Theorem authentication_failures_are_logged_once
    (credential : Credential) (sessionId ceremonySessionId : string) (w : World) :
  let b := beginPasskeyAuthentication env sessionId w in
  let f := finishPasskeyAuthentication env credential sessionId ceremonySessionId w in
  errorLog (snd b)
    = (errorLog w ++
       match fst b with
       | Thrown e => [("begin passkey authentication failed", e)]
       | Returned _ => []
       end)%list /\
  errorLog (snd f)
    = (errorLog w ++
       match fst f with
       | Thrown e => [("finish passkey authentication failed", e)]
       | Returned _ => []
       end)%list /\
  (forall request,
     requests_of (finishPasskeyAuthentication env credential sessionId
                    ceremonySessionId) w = [request] ->
     fst f = match HTTPService env (network w) request with
             | Returned response => Returned (data response)
             | Thrown e => Thrown e
             end) /\
  (forall w' : World,
     network w' = network w ->
     fst (finishPasskeyAuthentication env credential sessionId ceremonySessionId w')
       = fst f) /\
  (token (snd b) = token w /\ prompts (snd b) = prompts w) /\
  (token (snd f) = token w /\ prompts (snd f) = prompts w).
Proof.
  intros b f. subst b f.
  pose proof (beginPasskeyAuthentication_run sessionId w) as B.
  pose proof (finishPasskeyAuthentication_run credential sessionId
                ceremonySessionId) as F.
  cbv zeta in B, F.
  set (q := authenticationFinishRequest env credential sessionId ceremonySessionId)
    in *.
  assert (Q : requests_of (finishPasskeyAuthentication env credential sessionId
                             ceremonySessionId) w = [q]).
  { apply requests_of_app. rewrite F.
    destruct (HTTPService env (network w) q); reflexivity. }
  split; [|split; [|split; [|split; [|split]]]].
  - rewrite B.
    destruct (HTTPService env (network w) _); cbn [fst snd errorLog logged sent];
      [rewrite app_nil_r|]; reflexivity.
  - rewrite F.
    destruct (HTTPService env (network w) q); cbn [fst snd errorLog logged sent];
      [rewrite app_nil_r|]; reflexivity.
  - intros request R. rewrite Q in R. injection R as <-.
    rewrite F. destruct (HTTPService env (network w) q); reflexivity.
  - intros w' N. rewrite !F, N.
    destruct (HTTPService env (network w) q); reflexivity.
  - rewrite B. destruct (HTTPService env (network w) _); split; reflexivity.
  - rewrite F. destruct (HTTPService env (network w) q); split; reflexivity.
Qed.


(** The requests of the management operations, token or no token. *)
Lemma management_requests (w : World) (id name : string) :
  (truthy (token w) = None /\
   requests_of (getPasskeys env) w = [] /\
   requests_of (renamePasskey env id name) w = [] /\
   requests_of (deletePasskey env id) w = []) \/
  (exists t,
     truthy (token w) = Some t /\
     let auth := JsObject [("X-Auth-Token", JsString t)] in
     requests_of (getPasskeys env) w
       = [mkRequest GET (ENDPOINT env ++ "/passkeys") JsUndefined (JsObject []) auth] /\
     requests_of (renamePasskey env id name) w
       = [mkRequest PATCH (ENDPOINT env ++ "/passkeys/" ++ id) (JsObject [])
                    (JsObject [("friendlyName", JsString name)]) auth] /\
     requests_of (deletePasskey env id) w
       = [mkRequest DELETE (ENDPOINT env ++ "/passkeys/" ++ id) (JsObject [])
                    (JsObject []) auth]).
Proof.
  destruct (truthy (token w)) as [t|] eqn:T.
  - right. exists t. split; [reflexivity|]. cbv zeta.
    split; [|split]; apply requests_of_app.
    + unfold getPasskeys, bind, getToken. rewrite T.
      unfold HTTPService_get, HTTPService_request.
      destruct (HTTPService env (network w) _); reflexivity.
    + unfold renamePasskey, try_catch, bind, getToken. rewrite T.
      unfold HTTPService_patch, HTTPService_request.
      destruct (HTTPService env (network w) _); reflexivity.
    + unfold deletePasskey, try_catch, bind, getToken. rewrite T.
      unfold HTTPService_delete, HTTPService_request.
      destruct (HTTPService env (network w) _); reflexivity.
  - left. split; [reflexivity|].
    split; [|split]; apply requests_of_same_world.
    + unfold getPasskeys, bind, getToken. rewrite T. reflexivity.
    + unfold renamePasskey, try_catch, bind, getToken. rewrite T. reflexivity.
    + unfold deletePasskey, try_catch, bind, getToken. rewrite T. reflexivity.
Qed.

(** X13. The client package travels on the begin request of a registration
    and nowhere else. Every request of [getPasskeys], [renamePasskey],
    [deletePasskey] and [finishPasskeyRegistration] has the stored token in
    [X-Auth-Token] as its only header, also when a client package is stored;
    the request of [finishPasskeyAuthentication] has no headers; the begin
    request of a registration has the stored client package in
    [X-Client-Package]. *)
Theorem client_package_only_on_registration_begin
    (w : World) (id name friendlyName sessionID sessionId ceremonySessionId : string)
    (credential : Credential) :
  (forall request,
     In request (requests_of (getPasskeys env) w) \/
     In request (requests_of (renamePasskey env id name) w) \/
     In request (requests_of (deletePasskey env id) w) \/
     In request (requests_of (finishPasskeyRegistration env friendlyName credential
                                sessionID) w) ->
     exists t,
       token w = Some t /\
       req_headers request = JsObject [("X-Auth-Token", JsString t)]) /\
  (forall request,
     In request (requests_of (finishPasskeyAuthentication env credential sessionId
                                ceremonySessionId) w) ->
     req_headers request = JsUndefined) /\
  (forall request p,
     truthy (clientPackage w) = Some p ->
     In request (requests_of (getPasskeyRegistrationOptions env) w) ->
     field "X-Client-Package" (req_headers request) = JsString p).
Proof.
  split; [|split].
  - intros request H.
    destruct (management_requests w id name)
      as [[T [G [R D]]]|[t [T [G [R D]]]]].
    + rewrite G, R, D in H.
      destruct H as [[]|[[]|[[]|H]]].
      destruct (token w) as [t|] eqn:Tk.
      * rewrite (requests_of_app _ _ w _
                   (finishPasskeyRegistration_sends friendlyName credential
                      sessionID w t Tk)) in H.
        destruct H as [<-|[]]. exists t. split; reflexivity.
      * rewrite requests_of_same_world in H; [destruct H|].
        unfold finishPasskeyRegistration, bind, getToken, ensure.
        rewrite Tk. reflexivity.
    + pose proof (truthy_Some _ _ T) as Tk.
      rewrite G, R, D in H.
      rewrite (requests_of_app _ _ w _
                 (finishPasskeyRegistration_sends friendlyName credential
                    sessionID w t Tk)) in H.
      exists t. split; [exact Tk|].
      destruct H as [[<-|[]]|[[<-|[]]|[[<-|[]]|[<-|[]]]]]; reflexivity.
  - intros request H.
    rewrite (requests_of_app _ _ w _
               (finishPasskeyAuthentication_sends credential sessionId
                  ceremonySessionId w)) in H.
    destruct H as [<-|[]]. reflexivity.
  - intros request p P H.
    destruct (getPasskeyRegistrationOptions_world w)
      as [[T B]|[t [headers [T [_ B]]]]].
    + rewrite (requests_of_same_world _ _ w B) in H. destruct H.
    + destruct (headers_carry_token_and_package w t T) as [headers' [A [_ X]]].
      assert (E : snd (getPasskeyRegistrationOptions env w)
                  = sent (registrationBeginRequest env headers') w).
      { unfold getPasskeyRegistrationOptions. unfold bind at 1. rewrite A.
        unfold bind, fetch_with_headers.
        fold (registrationBeginRequest env headers').
        destruct (fetch env (network w) (registrationBeginRequest env headers'))
          as [res|e]; [|reflexivity].
        destruct (negb (ok res)); reflexivity. }
      rewrite (requests_of_app _ (getPasskeyRegistrationOptions env) w
                 [registrationBeginRequest env headers']) in H
        by (rewrite E; reflexivity).
      destruct H as [<-|[]]. cbn [req_headers registrationBeginRequest].
      rewrite X, P. reflexivity.
Qed.

End ServiceFacts.

(** ** The theorems at work on the sample run *)

Lemma management_without_token_witness :
  truthy (token Sample.signedOut) = None /\
  getPasskeys Sample.offline Sample.signedOut = (Returned JsUndefined, Sample.signedOut) /\
  renamePasskey Sample.offline "pk1" "laptop" Sample.signedOut
    = (Returned JsUndefined, Sample.signedOut) /\
  deletePasskey Sample.offline "pk1" Sample.signedOut
    = (Returned JsUndefined, Sample.signedOut).
Proof.
  split; [reflexivity|].
  destruct (management_without_token Sample.offline Sample.signedOut "pk1" "laptop"
              eq_refl) as [[G _] [[R _] [D _]]].
  exact (conj G (conj R D)).
Defined.

Lemma registration_begin_without_token_witness :
  truthy (token Sample.signedOut) = None /\
  getPasskeyRegistrationOptions Sample.offline Sample.signedOut
    = (Thrown (Error "Missing accounts token"), Sample.signedOut) /\
  registerPasskey Sample.offline "laptop" Sample.signedOut
    = (Thrown (Error "Missing accounts token"), Sample.signedOut).
Proof.
  split; [reflexivity|].
  destruct (registration_begin_without_token Sample.offline Sample.signedOut "laptop"
              eq_refl) as [_ [G [_ [R _]]]].
  exact (conj G R).
Defined.

Lemma registerPasskey_propagates_broker_failure_witness :
  fst (registerPasskey Sample.declining "laptop" Sample.signedIn)
    = Thrown Sample.NotAllowedError.
Proof.
  pose proof (registerPasskey_propagates_broker_failure Sample.declining "laptop"
                Sample.signedIn
                (snd (getPasskeyRegistrationOptions Sample.declining Sample.signedIn))
                Sample.registrationOptions [xff; xef; x00] [x00; x01; x02]
                Sample.NotAllowedError
                eq_refl eq_refl eq_refl eq_refl) as [R _].
  rewrite R. reflexivity.
Defined.


Lemma beginPasskeyAuthentication_needs_no_token_witness :
  fst (beginPasskeyAuthentication Sample.offline "login-1" Sample.signedIn)
    = fst (beginPasskeyAuthentication Sample.offline "login-1" Sample.signedOut).
Proof.
  destruct (beginPasskeyAuthentication_needs_no_token Sample.offline "login-1"
              Sample.signedOut) as [_ [_ [_ [_ I]]]].
  exact (I Sample.signedIn eq_refl).
Defined.

(** C9, as stated, fails on the code: for the sample credential, whose
    identifier is the encoding of its raw identifier as WebAuthn has it, the
    [rawId] that each finish call sends is the encoded raw binary
    identifier. *)
Lemma finish_payloads_rawId_is_id_counterexample :
  toB64URLSafeNoPadding (cred_rawId Sample.credential) = "AQID" /\
  (exists request,
     In request (requests_of (finishPasskeyAuthentication Sample.approving
                                Sample.credential "login-1" "ceremony-1")
                             Sample.signedOut) /\
     field "rawId" (payload (req_data request))
       = JsString (toB64URLSafeNoPadding (cred_rawId Sample.credential))) /\
  (exists request,
     In request (requests_of (finishPasskeyRegistration Sample.approving "laptop"
                                Sample.credential "session+1/=")
                             Sample.signedIn) /\
     field "rawId" (payload (req_data request))
       = JsString (toB64URLSafeNoPadding (cred_rawId Sample.credential))).
Proof.
  split; [reflexivity|].
  split; eexists; (split; [left; reflexivity | reflexivity]).
Qed.

Lemma finish_payloads_rawId_is_id_witness :
  length (requests_of (finishPasskeyRegistration Sample.approving "laptop"
                         Sample.credential "session+1/=") Sample.signedIn) = 1.
Proof.
  destruct (finish_payloads_rawId_is_id Sample.approving "laptop" "session+1/="
              "login-1" "ceremony-1" Sample.credential Sample.signedIn)
    as [_ [_ [_ [L _]]]].
  apply L. discriminate.
Defined.

Lemma management_with_token_witness :
  renamePasskey Sample.offline "pk1" "laptop" Sample.signedIn
  = (Thrown Sample.NetworkError,
     logged "rename passkey failed" Sample.NetworkError
       (sent (mkRequest PATCH "https://api.ente.io/passkeys/pk1" (JsObject [])
                (JsObject [("friendlyName", JsString "laptop")])
                (JsObject [("X-Auth-Token", JsString "tok")]))
             Sample.signedIn)).
Proof.
  destruct (management_with_token Sample.offline Sample.signedIn "pk1" "laptop" "tok"
              eq_refl) as [_ [R _]].
  exact R.
Defined.

Lemma registration_begin_server_error_witness :
  fst (getPasskeyRegistrationOptions Sample.unavailable Sample.signedIn)
  = Thrown (Error "Failed to fetch https://api.ente.io/passkeys/registration/begin: HTTP 503").
Proof.
  rewrite (registration_begin_server_error Sample.unavailable Sample.signedIn
             (JsObject [("X-Auth-Token", JsString "tok");
                        ("X-Client-Package", JsString "io.ente.photos.web")])
             (mkFetchResponse false 503 (Thrown Sample.NetworkError))
             eq_refl eq_refl eq_refl).
  reflexivity.
Defined.

Lemma headers_carry_token_and_package_witness :
  exists headers,
    accountsAuthenticatedRequestHeaders Sample.signedInBare
      = (Returned headers, Sample.signedInBare) /\
    field "X-Auth-Token" headers = JsString "tok" /\
    field "X-Client-Package" headers = JsUndefined.
Proof.
  exact (headers_carry_token_and_package Sample.signedInBare "tok" eq_refl).
Defined.

Lemma registerPasskey_stops_on_malformed_options_witness :
  fst (registerPasskey Sample.padding "laptop" Sample.signedIn)
    = Thrown MalformedEncodingError /\
  prompts (snd (registerPasskey Sample.padding "laptop" Sample.signedIn)) = [].
Proof.
  destruct (registerPasskey_stops_on_malformed_options Sample.padding "laptop"
              Sample.signedIn
              (snd (getPasskeyRegistrationOptions Sample.padding Sample.signedIn))
              Sample.paddedOptions MalformedEncodingError
              eq_refl
              (or_intror (ex_intro _ [xff; xef; x00] (conj eq_refl eq_refl))))
    as [R [P _]].
  rewrite R. split; [reflexivity | exact P].
Defined.

Lemma registerPasskey_without_credential_witness :
  length (network (snd (registerPasskey Sample.emptyHanded "laptop" Sample.signedIn)))
    = 1.
Proof.
  destruct (registerPasskey_without_credential Sample.emptyHanded "laptop"
              Sample.signedIn
              (snd (getPasskeyRegistrationOptions Sample.emptyHanded Sample.signedIn))
              Sample.registrationOptions [xff; xef; x00] [x00; x01; x02]
              eq_refl eq_refl eq_refl eq_refl) as [_ [_ N]].
  rewrite N. reflexivity.
Defined.

Lemma registerPasskey_conduct_witness :
  forallb (fun request =>
             match field "X-Auth-Token" (req_headers request) with
             | JsString t => String.eqb t "tok"
             | _ => false
             end)
          (requests_of (registerPasskey Sample.approving "laptop") Sample.signedIn)
    = true.
Proof.
  destruct (registerPasskey_conduct Sample.approving "laptop" Sample.signedIn)
    as [_ [_ [_ [_ H]]]].
  apply forallb_forall. intros request I.
  destruct (H request I) as [t [T X]].
  rewrite X. injection T as <-. reflexivity.
Defined.

Lemma registerPasskey_ends_as_finish_request_witness :
  fst (registerPasskey Sample.refusing "laptop" Sample.signedIn)
    = Thrown Sample.ServerError.
Proof.
  destruct (registerPasskey_ends_as_finish_request Sample.refusing "laptop"
              Sample.signedIn
              (snd (getPasskeyRegistrationOptions Sample.refusing Sample.signedIn))
              Sample.registrationOptions [xff; xef; x00] [x00; x01; x02]
              Sample.credential
              eq_refl eq_refl eq_refl eq_refl) as [t [_ R]].
  rewrite R. reflexivity.
Defined.

Lemma authentication_failures_are_logged_once_witness :
  errorLog (snd (finishPasskeyAuthentication Sample.refusing Sample.credential
                   "login-1" "ceremony-1" Sample.signedOut))
    = [("finish passkey authentication failed", Sample.ServerError)] /\
  fst (finishPasskeyAuthentication Sample.refusing Sample.credential
         "login-1" "ceremony-1" Sample.signedIn)
    = Thrown Sample.ServerError.
Proof.
  destruct (authentication_failures_are_logged_once Sample.refusing Sample.credential
              "login-1" "ceremony-1" Sample.signedOut) as [_ [L [_ [I _]]]].
  split.
  - rewrite L. reflexivity.
  - rewrite (I Sample.signedIn eq_refl). reflexivity.
Defined.

Lemma client_package_only_on_registration_begin_witness :
  (exists t,
     token Sample.signedIn = Some t /\
     JsObject [("X-Auth-Token", JsString "tok")]
       = JsObject [("X-Auth-Token", JsString t)]) /\
  field "X-Client-Package"
        (JsObject [("X-Auth-Token", JsString "tok");
                   ("X-Client-Package", JsString "io.ente.photos.web")])
    = JsString "io.ente.photos.web".
Proof.
  destruct (client_package_only_on_registration_begin Sample.approving
              Sample.signedIn "pk1" "laptop" "laptop" "session+1/=" "login-1"
              "ceremony-1" Sample.credential) as [A [_ C]].
  split.
  - exact (A (mkRequest PATCH "https://api.ente.io/passkeys/pk1" (JsObject [])
                (JsObject [("friendlyName", JsString "laptop")])
                (JsObject [("X-Auth-Token", JsString "tok")]))
             (or_intror (or_introl (or_introl eq_refl)))).
  - exact (C (mkRequest GET "https://api.ente.io/passkeys/registration/begin"
                JsUndefined JsUndefined
                (JsObject [("X-Auth-Token", JsString "tok");
                           ("X-Client-Package", JsString "io.ente.photos.web")]))
             "io.ente.photos.web" eq_refl (or_introl eq_refl)).
Defined.
